(** * Zoo / animal / user record service: a shallow embedding of the handlers

    The service is an Express application over a Mongoose document store.
    This development embeds the request handlers of

      - [controllers/animalController.js]  (createAnimal, updateAnimal, deleteAnimal)
      - [routes/animalRoutes.js]           (the handlers mounted under /api/animals)
      - the zoo routes                     (POST /api/zoos)
      - [middlewares/auth.js]              (authMiddleware)
      - [controllers/authController.js]    (login)
      - the user routes                    (POST /users, /change-password, /reset-password)

    as functions from a store [Db] to a new store and an HTTP response.
    Third-party libraries (bcryptjs, jsonwebtoken) are interfaces; the
    theorems hold for every implementation of them. *)

From Stdlib Require Import NArith.
From stdpp Require Import base option list gmap strings pretty.

Open Scope string_scope.
Open Scope N_scope.

(** ** JavaScript values and control flow *)

(** A call either returns a value or throws; [e] is the [message] of the
    thrown error. *)
Inductive result (A : Type) : Type :=
| Ok (a : A)
| Throw (e : string).
Arguments Ok {A} a.
Arguments Throw {A} e.

#[global] Instance result_ret : MRet result := fun A a => Ok a.
#[global] Instance result_bind : MBind result := fun A B f r =>
  match r with
  | Ok a => f a
  | Throw e => Throw e
  end.

(** Truthiness of a string-valued request field: [undefined] and the
    empty string are falsy, every other string is truthy. *)
Definition truthy (v : option string) : bool :=
  match v with
  | None => false
  | Some s => negb (String.eqb s "")
  end.

(** [strip_prefix pat s] is the rest of [s] after a leading [pat], when [s]
    starts with [pat]. *)
Fixpoint strip_prefix (pat s : string) : option string :=
  match pat, s with
  | EmptyString, _ => Some s
  | String a pat', String b s' =>
      if Ascii.eqb a b then strip_prefix pat' s' else None
  | String _ _, EmptyString => None
  end.

(** [s.replace(pat, repl)] with a string pattern: only the first (leftmost)
    occurrence of [pat] is replaced; without an occurrence [s] is returned
    as it is. *)
Fixpoint replace (pat repl s : string) : string :=
  match strip_prefix pat s with
  | Some rest => repl +:+ rest
  | None =>
      match s with
      | EmptyString => EmptyString
      | String c s' => String c (replace pat repl s')
      end
  end.

(** ** The document store *)

(** An [ObjectId]; request parameters are taken to be castable to one. *)
Definition ObjectId : Type := N.

(** A stored document: its [_id] and its fields. *)
Definition Doc (A : Type) : Type := ObjectId * A.
Definition _id {A : Type} (d : Doc A) : ObjectId := d.1.
Definition fields {A : Type} (d : Doc A) : A := d.2.

(** [animalSchema]: [name] and [species] are required, [zoo] is an optional
    reference. *)
Module Animal.
Record t : Type := mk { name : string; species : string; zoo : option ObjectId }.
End Animal.

(** [zooSchema]: [name] and [location] are required, [animals] is an array
    of references. *)
Module Zoo.
Record t : Type := mk { name : string; location : string; animals : list ObjectId }.
End Zoo.

(** [userSchema]: [username] (required, unique) and [password] (required).
    The embedded [posts] array is never read or written by a handler. *)
Module User.
Record t : Type := mk { username : string; password : string }.
End User.

(** The three collections, and the supply of fresh [ObjectId]s: an
    [ObjectId] is generated once and never again. *)
Record Db : Type := mkDb {
  Animals : gmap ObjectId Animal.t;
  Zoos : gmap ObjectId Zoo.t;
  Users : gmap ObjectId User.t;
  nextId : ObjectId
}.

Definition empty_db : Db := mkDb ∅ ∅ ∅ 0.

Definition set_Animals (db : Db) (m : gmap ObjectId Animal.t) : Db :=
  mkDb m (Zoos db) (Users db) (nextId db).
Definition set_Zoos (db : Db) (m : gmap ObjectId Zoo.t) : Db :=
  mkDb (Animals db) m (Users db) (nextId db).
Definition set_Users (db : Db) (m : gmap ObjectId User.t) : Db :=
  mkDb (Animals db) (Zoos db) m (nextId db).
Definition bump (db : Db) : Db :=
  mkDb (Animals db) (Zoos db) (Users db) (N.succ (nextId db)).

(** [Model.findById(id)]; [findById(undefined)] resolves to [null]. *)
Definition findById {A : Type} (coll : gmap ObjectId A) (id : option ObjectId)
  : option (Doc A) :=
  match id with
  | None => None
  | Some i => (fun f => (i, f)) <$> coll !! i
  end.

(** All documents of a collection, in the order the store yields them. *)
Definition docs {A : Type} (coll : gmap ObjectId A) : list (Doc A) :=
  map_to_list coll.

(** The [required: true] validator of a String path: the value must be
    present and not the empty string. *)
Definition required (v : option string) : result string :=
  match v with
  | Some s => if String.eqb s "" then Throw "Path is required." else Ok s
  | None => Throw "Path is required."
  end.
Arguments required : simpl never.

(** [new Animal({name, species, zoo})] followed by [save()]: the document
    gets a fresh [_id], is validated against the schema and inserted. *)
Definition Animal_save_new (db : Db) (name species : option string)
  (zoo : option ObjectId) : result (Db * Doc Animal.t) :=
  n ← required name;
  s ← required species;
  let a := Animal.mk n s zoo in
  let i := nextId db in
  Ok (bump (set_Animals db (<[i := a]> (Animals db))), (i, a)).

(** [zoo.save()] on a document loaded from the store. *)
Definition Zoo_save (db : Db) (z : Doc Zoo.t) : result Db :=
  _ ← required (Some (Zoo.name (fields z)));
  _ ← required (Some (Zoo.location (fields z)));
  Ok (set_Zoos db (<[_id z := fields z]> (Zoos db))).

(** [new Zoo({name, location, animals})] followed by [save()]. *)
Definition Zoo_save_new (db : Db) (name location : option string)
  (animals : list ObjectId) : result (Db * Doc Zoo.t) :=
  n ← required name;
  l ← required location;
  let z := Zoo.mk n l animals in
  let i := nextId db in
  Ok (bump (set_Zoos db (<[i := z]> (Zoos db))), (i, z)).

(** The fields of an animal update; an [undefined] field is dropped from
    the update and leaves the stored path as it is. *)
Record AnimalUpdate : Type := mkAnimalUpdate {
  upd_name : option string;
  upd_species : option string;
  upd_zoo : option ObjectId
}.

Definition apply_update (u : AnimalUpdate) (a : Animal.t) : Animal.t :=
  Animal.mk (default (Animal.name a) (upd_name u))
            (default (Animal.species a) (upd_species u))
            (match upd_zoo u with Some z => Some z | None => Animal.zoo a end).

(** [Animal.findByIdAndUpdate(id, update, {new: true})]: no validators
    run; the updated document is returned, or [null] when [id] does not
    resolve. *)
Definition Animal_findByIdAndUpdate (db : Db) (id : ObjectId) (u : AnimalUpdate)
  : Db * option (Doc Animal.t) :=
  match Animals db !! id with
  | None => (db, None)
  | Some a =>
      let a' := apply_update u a in
      (set_Animals db (<[id := a']> (Animals db)), Some (id, a'))
  end.

(** [Animal.findByIdAndDelete(id)]. *)
Definition Animal_findByIdAndDelete (db : Db) (id : ObjectId) : Db :=
  set_Animals db (delete id (Animals db)).

(** [Animal.find({zoo: zooId})]. *)
Definition Animal_find_by_zoo (db : Db) (zooId : ObjectId) : list (Doc Animal.t) :=
  filter (fun d => Animal.zoo (fields d) = Some zooId) (docs (Animals db)).

(** [Animal.find({_id: {$in: ids}})] for an array [ids]. *)
Definition Animal_find_in (db : Db) (ids : list ObjectId) : list (Doc Animal.t) :=
  filter (fun d => _id d ∈ ids) (docs (Animals db)).

(** The identifiers [Animal.find({_id: {$in: ids}})] resolves. *)
Definition resolved (db : Db) (ids : list ObjectId) : list ObjectId :=
  _id <$> Animal_find_in db ids.

(** ** HTTP responses *)

(** [populate('zoo', 'name location')]: the reference is replaced by the
    projection of the zoo it resolves to, or by [null]. *)
Record ZooProjection : Type := mkZooProjection {
  zp_id : ObjectId; zp_name : string; zp_location : string
}.
Record PopulatedAnimal : Type := mkPopulatedAnimal {
  pa_id : ObjectId; pa_name : string; pa_species : string;
  pa_zoo : option ZooProjection
}.

Definition populate_zoo (db : Db) (d : Doc Animal.t) : PopulatedAnimal :=
  mkPopulatedAnimal (_id d) (Animal.name (fields d)) (Animal.species (fields d))
    ((fun z => mkZooProjection (_id z) (Zoo.name (fields z)) (Zoo.location (fields z)))
       <$> findById (Zoos db) (Animal.zoo (fields d))).

(** The JSON bodies the handlers send. *)
Inductive Body : Type :=
| Message (message : string)
| MessageError (message error : string)
| AnimalJson (animal : Doc Animal.t)
| AnimalsJson (animals : list PopulatedAnimal)
| ZooJson (zoo : Doc Zoo.t)
| TokenJson (token : string).

Record Response : Type := mkResponse { status : N; body : Body }.

(** ** controllers/animalController.js *)

(** The request body of the animal handlers. *)
Record AnimalBody : Type := mkAnimalBody {
  body_name : option string;
  body_species : option string;
  body_zoo : option ObjectId
}.

(** [exports.createAnimal]: the animal is saved first, then the zoo is
    looked up and the new identifier pushed onto its [animals]. *)
Definition createAnimal (db : Db) (b : AnimalBody) : Db * Response :=
  match Animal_save_new db (body_name b) (body_species b) (body_zoo b) with
  | Throw e => (db, mkResponse 400 (Message e))
  | Ok (db1, newAnimal) =>
      match findById (Zoos db1) (body_zoo b) with
      | None => (db1, mkResponse 404 (Message "Zoológico no encontrado"))
      | Some zoo =>
          let zoo' : Doc Zoo.t :=
            (_id zoo, Zoo.mk (Zoo.name (fields zoo)) (Zoo.location (fields zoo))
                             (Zoo.animals (fields zoo) ++ [_id newAnimal])) in
          match Zoo_save db1 zoo' with
          | Throw e => (db1, mkResponse 400 (Message e))
          | Ok db2 => (db2, mkResponse 201 (AnimalJson newAnimal))
          end
      end
  end.

(** [exports.updateAnimal]: the request body is the update. *)
Definition updateAnimal (db : Db) (id : ObjectId) (b : AnimalBody) : Db * Response :=
  match Animal_findByIdAndUpdate db id
          (mkAnimalUpdate (body_name b) (body_species b) (body_zoo b)) with
  | (db', None) => (db', mkResponse 404 (Message "Animal no encontrado"))
  | (db', Some updatedAnimal) => (db', mkResponse 200 (AnimalJson updatedAnimal))
  end.

(** [exports.deleteAnimal]: the identifier is filtered out of the zoo's
    [animals] when the zoo resolves, then the animal is deleted. *)
Definition deleteAnimal (db : Db) (id : ObjectId) : Db * Response :=
  match findById (Animals db) (Some id) with
  | None => (db, mkResponse 404 (Message "Animal no encontrado"))
  | Some animal =>
      let unlinked :=
        match findById (Zoos db) (Animal.zoo (fields animal)) with
        | Some zoo =>
            Zoo_save db
              (_id zoo, Zoo.mk (Zoo.name (fields zoo)) (Zoo.location (fields zoo))
                 (filter (fun animalId => animalId ≠ _id animal)
                         (Zoo.animals (fields zoo))))
        | None => Ok db
        end in
      match unlinked with
      | Throw e => (db, mkResponse 500 (Message e))
      | Ok db1 =>
          (Animal_findByIdAndDelete db1 id, mkResponse 200 (Message "Animal eliminado"))
      end
  end.

(** ** routes/animalRoutes.js: the handlers mounted under /api/animals

    app.js mounts these routes, and the zoo routes, behind
    [authMiddleware]; each handler is embedded as what it does with a
    request that has passed the middleware. *)

(** [router.post('/no-zoo')]. *)
Definition post_no_zoo (db : Db) (b : AnimalBody) : Db * Response :=
  if negb (truthy (body_name b)) || negb (truthy (body_species b))
  then (db, mkResponse 400 (Message "Faltan campos requeridos: name y species"))
  else
    match Animal_save_new db (body_name b) (body_species b) None with
    | Throw e => (db, mkResponse 400 (MessageError "Error al crear el animal" e))
    | Ok (db1, newAnimal) => (db1, mkResponse 201 (AnimalJson newAnimal))
    end.

(** [router.post('/')]. *)
Definition post_animal (db : Db) (b : AnimalBody) : Db * Response :=
  match findById (Zoos db) (body_zoo b) with
  | None => (db, mkResponse 404 (Message "Zoológico no encontrado"))
  | Some foundZoo =>
      match Animal_save_new db (body_name b) (body_species b) (Some (_id foundZoo)) with
      | Throw e => (db, mkResponse 400 (MessageError "Error al crear el animal" e))
      | Ok (db1, newAnimal) => (db1, mkResponse 201 (AnimalJson newAnimal))
      end
  end.

(** [router.get('/zoo/:zooId')]. *)
Definition get_animals_by_zoo (db : Db) (zooId : ObjectId) : Response :=
  let animals := populate_zoo db <$> Animal_find_by_zoo db zooId in
  if (N.of_nat (length animals) =? 0)%N
  then mkResponse 404 (Message "No se encontraron animales para este zoológico")
  else mkResponse 200 (AnimalsJson animals).

(** [router.put('/:id')]. *)
Definition put_animal (db : Db) (id : ObjectId) (b : AnimalBody) : Db * Response :=
  match findById (Zoos db) (body_zoo b) with
  | None => (db, mkResponse 404 (Message "zoologico no encontrado"))
  | Some foundZoo =>
      match Animal_findByIdAndUpdate db id
              (mkAnimalUpdate (body_name b) (body_species b) (Some (_id foundZoo))) with
      | (db', None) => (db', mkResponse 404 (Message "Animal no encontrado"))
      | (db', Some animal) => (db', mkResponse 200 (AnimalJson animal))
      end
  end.

(** [router.delete('/:id')]. *)
Definition delete_animal (db : Db) (id : ObjectId) : Db * Response :=
  match findById (Animals db) (Some id) with
  | None => (db, mkResponse 404 (Message "Animal no encontrado"))
  | Some animal =>
      match findById (Zoos db) (Animal.zoo (fields animal)) with
      | None => (db, mkResponse 404 (Message "Zoológico no encontrado"))
      | Some _ =>
          (Animal_findByIdAndDelete db id,
           mkResponse 200 (Message "Animal eliminado exitosamente"))
      end
  end.

(** The bidirectional link between animals and zoos, as a check on a
    store: every animal with a zoo reference is listed by that zoo
    ([forward_ok]), and every identifier a zoo lists is an animal whose
    reference is that zoo ([reverse_ok]). *)
Definition forward_ok (db : Db) : bool :=
  forallb (fun d : Doc Animal.t =>
             match Animal.zoo (fields d) with
             | None => true
             | Some z =>
                 match Zoos db !! z with
                 | Some zoo => bool_decide (_id d ∈ Zoo.animals zoo)
                 | None => false
                 end
             end) (docs (Animals db)).

Definition reverse_ok (db : Db) : bool :=
  forallb (fun z : Doc Zoo.t =>
             forallb (fun i : ObjectId =>
                        match Animals db !! i with
                        | Some a => bool_decide (Animal.zoo a = Some (_id z))
                        | None => false
                        end) (Zoo.animals (fields z))) (docs (Zoos db)).

Definition linked (db : Db) : bool := forward_ok db && reverse_ok db.

(** The number of times [i] occurs in a zoo's [animals]. *)
Definition occurrences (i : ObjectId) (l : list ObjectId) : nat :=
  length (filter (fun j => j = i) l).

(** No animal refers to [zooId]. *)
Definition houses_none (db : Db) (zooId : ObjectId) : Prop :=
  forall (i : ObjectId) (a : Animal.t),
    Animals db !! i = Some a -> Animal.zoo a <> Some zooId.

(** ** The zoo routes: POST /api/zoos *)

Record ZooBody : Type := mkZooBody {
  zbody_name : option string;
  zbody_location : option string;
  zbody_animals : option (list ObjectId)
}.

(** [animals.length]: reading a property of [undefined] throws. *)
Definition array_length {A : Type} (a : option (list A)) : result nat :=
  match a with
  | Some l => Ok (length l)
  | None => Throw "Cannot read properties of undefined (reading 'length')"
  end.

Section ZooRoutes.

(** What [Animal.find({_id: {$in: undefined}})] does is Mongoose's
    business (it may cast the operand or reject it); the handler is
    embedded for every answer. *)
Variable find_in_undefined : Db -> result (list (Doc Animal.t)).

Definition Animal_find_in_body (db : Db) (animals : option (list ObjectId))
  : result (list (Doc Animal.t)) :=
  match animals with
  | Some ids => Ok (Animal_find_in db ids)
  | None => find_in_undefined db
  end.

(** [router.post('/')] of the zoo routes. *)
Definition post_zoo (db : Db) (b : ZooBody) : Db * Response :=
  let attempt : result (Db * Response) :=
    foundAnimals ← Animal_find_in_body db (zbody_animals b);
    requested ← array_length (zbody_animals b);
    if negb (length foundAnimals =? requested)%nat
    then Ok (db, mkResponse 400
                   (Message "Uno o más animales no existen en la base de datos"))
    else
      saved ← Zoo_save_new db (zbody_name b) (zbody_location b)
                (_id <$> foundAnimals);
      Ok (saved.1, mkResponse 201 (ZooJson saved.2)) in
  match attempt with
  | Ok r => r
  | Throw e => (db, mkResponse 400 (MessageError "Error al crear el zoológico" e))
  end.

End ZooRoutes.

(** ** Identity: modules, libraries and environment *)

(** The values a module-level identifier of the identity code is bound
    to: [undefined], a Mongoose model (by the name it was registered
    under), or an object of shorthand properties [{ M1, M2, ... }], each
    holding the model of its own name. *)
Inductive JsValue : Type :=
| Undefined
| Model (name : string)
| Obj (models : list string).

(** [module.exports = { User, Post }] of the user model module. *)
Definition userModel_exports : JsValue := Obj ["User"; "Post"].

(** [o.key], [undefined] when [o] has no such property. *)
Definition get_prop (key : string) (o : JsValue) : JsValue :=
  match o with
  | Obj models => if bool_decide (key ∈ models) then Model key else Undefined
  | _ => Undefined
  end.

(** [const { User } = require('../models/userModel')], as in
    middlewares/auth.js and the user routes. *)
Definition destructured_User : JsValue := get_prop "User" userModel_exports.

(** [const User = require('../models/userModel')], as in
    controllers/authController.js: the whole exports object. *)
Definition required_User : JsValue := userModel_exports.

(** Calling a static model method on [recv]: a model answers from its
    collection (nothing ever writes a Post, so that collection is empty);
    on anything else the method is [undefined] and the call throws a
    TypeError. *)
Definition model_collection (recv : JsValue) (method : string) (db : Db)
  : result (gmap ObjectId User.t) :=
  match recv with
  | Model name => Ok (if String.eqb name "User" then Users db else ∅)
  | _ => Throw ("User." +:+ method +:+ " is not a function")
  end.
Arguments model_collection : simpl never.

(** The first document with the given [username], if any. A filter on
    an [undefined] value matches no document. *)
Definition findOne_username (coll : gmap ObjectId User.t) (username : option string)
  : option (Doc User.t) :=
  match username with
  | None => None
  | Some u => head (filter (fun d => User.username (fields d) = u) (docs coll))
  end.
Arguments findOne_username : simpl never.

(** [new User({username, password})] followed by [save()]: validation,
    then the insert, which the unique index on [username] can reject. *)
Definition User_save_new (db : Db) (username : option string) (password : string)
  : result (Db * Doc User.t) :=
  u ← required username;
  p ← required (Some password);
  match findOne_username (Users db) (Some u) with
  | Some _ => Throw "E11000 duplicate key error"
  | None =>
      let i := nextId db in
      Ok (bump (set_Users db (<[i := User.mk u p]> (Users db))), (i, User.mk u p))
  end.

(** [user.save()] on a document loaded from the store. *)
Definition User_save (db : Db) (user : Doc User.t) : result Db :=
  _ ← required (Some (User.username (fields user)));
  _ ← required (Some (User.password (fields user)));
  Ok (set_Users db (<[_id user := fields user]> (Users db))).

(** The random bytes a salt is generated from. *)
Definition Entropy : Type := N.

(** bcryptjs. [genSalt rounds rnd] is the salt generated with the given
    cost from the random bytes [rnd]; [hashSalt s salt] is the hash string
    of [s] under [salt]; [compareHash s hash] tells whether [hash] is a
    hash of [s]. *)
Class bcryptjs : Type := {
  genSalt : N -> Entropy -> string;
  hashSalt : string -> string -> string;
  compareHash : string -> string -> bool
}.

(** The second argument of [bcrypt.hash]: a number of rounds, for which a
    salt is generated first, or a salt. *)
Inductive SaltArg : Type :=
| Rounds (n : N)
| Salt (salt : string).

(** The payload the handlers sign: [{ id }] or [{ id, username }]. *)
Module Jwt.
Record payload : Type := mk { id : ObjectId; username : option string }.
End Jwt.

(** jsonwebtoken. [jwt_sign payload secret expiresIn now] is the token
    issued at time [now]; [jwt_verify token secret now] is the decoded
    payload, or the error thrown for a token that is malformed, expired
    or not signed with [secret]. *)
Class jsonwebtoken : Type := {
  jwt_sign : Jwt.payload -> string -> N -> N -> string;
  jwt_verify : string -> string -> N -> result Jwt.payload
}.

(** [process.env.JWT_SECRET] and the clock. *)
Record Env : Type := mkEnv { JWT_SECRET : string; now : N }.

(** What a middleware does with a request: send a response, pass the
    request on with [req.user] set, or let an exception escape. *)
Inductive Outcome : Type :=
| Respond (r : Response)
| Next (user : Doc User.t)
| Uncaught (e : string).

(** What comes of a request in the end. *)
Inductive Reply : Type :=
| Sent (r : Response)
| Unhandled (e : string).

(** The request bodies of the identity handlers. *)
Record UserBody : Type := mkUserBody {
  body_username : option string;
  body_password : option string
}.
Record ChangePasswordBody : Type := mkChangePasswordBody {
  cp_oldPassword : option string;
  cp_newPassword : option string
}.
Record ResetPasswordBody : Type := mkResetPasswordBody {
  rp_username : option string;
  rp_newPassword : option string
}.

Section Identity.

Context {bcrypt : bcryptjs} {jwt : jsonwebtoken}.

(** [bcrypt.hash(s, salt)]; a value that is not a string is rejected. *)
Definition bcrypt_hash (s : option string) (salt : SaltArg) (rnd : Entropy)
  : result string :=
  match s with
  | None => Throw "Illegal arguments: undefined, number"
  | Some plain =>
      Ok (hashSalt plain
            match salt with
            | Rounds n => genSalt n rnd
            | Salt generated => generated
            end)
  end.

(** [bcrypt.compare(s, hash)]. *)
Definition bcrypt_compare (s : option string) (hash : string) : result bool :=
  match s with
  | None => Throw "Illegal arguments: undefined, string"
  | Some plain => Ok (compareHash plain hash)
  end.

(** ** middlewares/auth.js *)

(** [authMiddleware]; [authorization] is [req.header('Authorization')].
    The header is read, and [replace] called on it, before the [try]
    block is entered. *)
Definition authMiddleware (env : Env) (db : Db) (authorization : option string)
  : Outcome :=
  match authorization with
  | None => Uncaught "Cannot read properties of undefined (reading 'replace')"
  | Some header =>
      let token := replace "Bearer " "" header in
      if negb (truthy (Some token))
      then Respond (mkResponse 401 (Message "Autenticación requerida"))
      else
        let attempt : result Outcome :=
          decoded ← jwt_verify token (JWT_SECRET env) (now env);
          coll ← model_collection destructured_User "findById" db;
          match findById coll (Some (Jwt.id decoded)) with
          | None => Ok (Respond (mkResponse 404 (Message "Usuario no encontrado")))
          | Some user => Ok (Next user)
          end in
        match attempt with
        | Ok o => o
        | Throw e => Respond (mkResponse 401 (MessageError "Token inválido" e))
        end
  end.

(** A route registered as [router.X(path, authMiddleware, handler)]. *)
Definition protected (env : Env) (db : Db) (authorization : option string)
  (handler : Doc User.t -> Db * Response) : Db * Reply :=
  match authMiddleware env db authorization with
  | Respond r => (db, Sent r)
  | Uncaught e => (db, Unhandled e)
  | Next user => let served := handler user in (served.1, Sent served.2)
  end.

(** ** The user routes *)

(** [router.post('/users')]: registration. *)
Definition register (env : Env) (db : Db) (b : UserBody) (rnd : Entropy)
  : Db * Response :=
  let attempt : result (Db * Response) :=
    hashedPassword ← bcrypt_hash (body_password b) (Rounds 10) rnd;
    saved ← User_save_new db (body_username b) hashedPassword;
    let token :=
      jwt_sign (Jwt.mk (_id saved.2) None) (JWT_SECRET env) 3600 (now env) in
    Ok (saved.1, mkResponse 201 (TokenJson token)) in
  match attempt with
  | Ok r => r
  | Throw e => (db, mkResponse 400 (MessageError "Error al registrar el usuario" e))
  end.

(** The handler of [router.post('/change-password')]; [user] is
    [req.user]. *)
Definition change_password_handler (db : Db) (b : ChangePasswordBody)
  (rnd : Entropy) (user : Doc User.t) : Db * Response :=
  let attempt : result (Db * Response) :=
    isMatch ← bcrypt_compare (cp_oldPassword b) (User.password (fields user));
    if negb isMatch
    then Ok (db, mkResponse 400 (Message "Contraseña actual incorrecta"))
    else
      hashed ← bcrypt_hash (cp_newPassword b) (Rounds 10) rnd;
      db' ← User_save db (_id user, User.mk (User.username (fields user)) hashed);
      Ok (db', mkResponse 200 (Message "Contraseña cambiada exitosamente")) in
  match attempt with
  | Ok r => r
  | Throw e => (db, mkResponse 400 (MessageError "Error al cambiar la contraseña" e))
  end.

Definition change_password (env : Env) (db : Db) (authorization : option string)
  (b : ChangePasswordBody) (rnd : Entropy) : Db * Reply :=
  protected env db authorization (change_password_handler db b rnd).

(** [router.post('/reset-password')]. *)
Definition reset_password (db : Db) (b : ResetPasswordBody) (rnd : Entropy)
  : Db * Response :=
  let attempt : result (Db * Response) :=
    coll ← model_collection destructured_User "findOne" db;
    match findOne_username coll (rp_username b) with
    | None => Ok (db, mkResponse 404 (Message "Usuario no encontrado"))
    | Some user =>
        let salt := genSalt 10 rnd in
        hashed ← bcrypt_hash (rp_newPassword b) (Salt salt) rnd;
        db' ← User_save db (_id user, User.mk (User.username (fields user)) hashed);
        Ok (db', mkResponse 200 (Message "Contraseña restablecida exitosamente"))
    end in
  match attempt with
  | Ok r => r
  | Throw e =>
      (db, mkResponse 400 (MessageError "Error al restablecer la contraseña" e))
  end.

(** [router.delete('/users/:id')]. *)
Definition delete_user (db : Db) (id : ObjectId) : Db * Response :=
  match model_collection destructured_User "findByIdAndDelete" db with
  | Throw e => (db, mkResponse 500 (MessageError "Error al eliminar el usuario" e))
  | Ok coll =>
      match findById coll (Some id) with
      | None => (db, mkResponse 404 (Message "Usuario no encontrado"))
      | Some _ =>
          (set_Users db (delete id (Users db)),
           mkResponse 200 (Message "Usuario eliminado exitosamente"))
      end
  end.

(** ** controllers/authController.js *)

(** The body of [exports.login], for the value [UserRef] that the
    identifier [User] is bound to in the module. *)
Definition login_with (UserRef : JsValue) (env : Env) (db : Db) (b : UserBody)
  : Response :=
  if negb (truthy (body_username b)) || negb (truthy (body_password b))
  then mkResponse 400 (Message "Username and password are required")
  else
    let attempt : result Response :=
      coll ← model_collection UserRef "findOne" db;
      match findOne_username coll (body_username b) with
      | None => Ok (mkResponse 400 (Message "Invalid credentials"))
      | Some user =>
          isMatch ← bcrypt_compare (body_password b) (User.password (fields user));
          if negb isMatch
          then Ok (mkResponse 400 (Message "Invalid credentials"))
          else
            Ok (mkResponse 200
                  (TokenJson
                     (jwt_sign (Jwt.mk (_id user) (Some (User.username (fields user))))
                               (JWT_SECRET env) 3600 (now env))))
      end in
    match attempt with
    | Ok r => r
    | Throw _ => mkResponse 500 (Message "Server error")
    end.

(** [exports.login]: the module binds [User] to what [require] returns. *)
Definition login : Env -> Db -> UserBody -> Response := login_with required_User.

(** ** The service as a transition system *)

Inductive Request : Type :=
| PostUsers (b : UserBody) (rnd : Entropy)
| PostChangePassword (authorization : option string) (b : ChangePasswordBody)
                     (rnd : Entropy)
| PostResetPassword (b : ResetPasswordBody) (rnd : Entropy)
| DeleteUsers (id : ObjectId)
| PostLogin (b : UserBody)
| PostAnimalsNoZoo (b : AnimalBody)
| PostAnimals (b : AnimalBody)
| PutAnimals (id : ObjectId) (b : AnimalBody)
| DeleteAnimals (id : ObjectId)
| PostZoos (find_in_undefined : Db -> result (list (Doc Animal.t))) (b : ZooBody)
| CreateAnimal (b : AnimalBody)
| UpdateAnimal (id : ObjectId) (b : AnimalBody)
| DeleteAnimal (id : ObjectId).

(** The store after a request is served. *)
Definition serve (env : Env) (db : Db) (req : Request) : Db :=
  match req with
  | PostUsers b rnd => (register env db b rnd).1
  | PostChangePassword authorization b rnd =>
      (change_password env db authorization b rnd).1
  | PostResetPassword b rnd => (reset_password db b rnd).1
  | DeleteUsers id => (delete_user db id).1
  | PostLogin _ => db
  | PostAnimalsNoZoo b => (post_no_zoo db b).1
  | PostAnimals b => (post_animal db b).1
  | PutAnimals id b => (put_animal db id b).1
  | DeleteAnimals id => (delete_animal db id).1
  | PostZoos find_in_undefined b => (post_zoo find_in_undefined db b).1
  | CreateAnimal b => (createAnimal db b).1
  | UpdateAnimal id b => (updateAnimal db id b).1
  | DeleteAnimal id => (deleteAnimal db id).1
  end.

(** The store after a sequence of requests, each served in its own
    environment, starting from [db]. *)
Fixpoint serve_all (db : Db) (trace : list (Env * Request)) : Db :=
  match trace with
  | [] => db
  | (env, req) :: rest => serve_all (serve env db req) rest
  end.

(** The plaintext password a request carries for the password field, and
    the hash the service derives from it. *)
Definition plaintext_of (req : Request) : option string :=
  match req with
  | PostUsers b _ => body_password b
  | PostChangePassword _ b _ => cp_newPassword b
  | PostResetPassword b _ => rp_newPassword b
  | _ => None
  end.

Definition entropy_of (req : Request) : Entropy :=
  match req with
  | PostUsers _ rnd | PostChangePassword _ _ rnd | PostResetPassword _ rnd => rnd
  | _ => 0
  end.

(** Every stored password is a hash output. *)
Definition all_hashed (db : Db) : Prop :=
  forall (i : ObjectId) (u : User.t),
    Users db !! i = Some u ->
    exists plain salt, User.password u = hashSalt plain salt.

End Identity.

(** ** Test doubles of the libraries, to run the handlers on concrete
    requests *)

Definition fake_bcrypt : bcryptjs := {|
  genSalt := fun rounds rnd => "$2a$" +:+ pretty rounds +:+ "$";
  hashSalt := fun plain salt => salt +:+ pretty (String.length plain);
  compareHash := fun plain hash =>
    match strip_prefix "$2a$10$" hash with
    | Some digest => String.eqb digest (pretty (String.length plain))
    | None => false
    end
|}.

Definition fake_jwt : jsonwebtoken := {|
  jwt_sign := fun p secret expiresIn now => secret +:+ "." +:+ pretty (Jwt.id p);
  jwt_verify := fun token secret now =>
    if String.eqb token (secret +:+ ".0") then Ok (Jwt.mk 0 None)
    else Throw "invalid signature"
|}.

(** ** Concrete stores and requests *)

Definition city_zoo : Zoo.t := Zoo.mk "City Zoo" "Springfield" [].
Definition leo : Animal.t := Animal.mk "Leo" "lion" (Some 0).

(** One zoo, [0], housing nothing. *)
Definition db_city_zoo : Db := mkDb ∅ {[0 := city_zoo]} ∅ 1.

(** POST /api/animals [{name: "Leo", species: "lion", zoo: 0}]. *)
Definition leo_body : AnimalBody := mkAnimalBody (Some "Leo") (Some "lion") (Some 0).

(** Zoo [0] houses animal [1], and both sides of the link agree. *)
Definition db_leo_housed : Db :=
  mkDb {[1 := leo]} {[0 := Zoo.mk "City Zoo" "Springfield" [1]]} ∅ 2.

(** Animal [1] refers to zoo [0], which is gone. *)
Definition db_leo_orphaned : Db := mkDb {[1 := leo]} ∅ ∅ 2.

(** As [db_leo_housed], with a second zoo, [2], housing nothing. *)
Definition db_two_zoos : Db :=
  mkDb {[1 := leo]}
       (<[2 := Zoo.mk "Safari Park" "Shelbyville" []]>
          {[0 := Zoo.mk "City Zoo" "Springfield" [1]]}) ∅ 3.

(** ** The remaining handlers of the routes and controllers *)

(** [s.includes(pat)]. *)
Fixpoint contains (pat s : string) : bool :=
  match strip_prefix pat s with
  | Some _ => true
  | None =>
      match s with
      | EmptyString => false
      | String _ s' => contains pat s'
      end
  end.

(** [populate('animals')]: every reference of the array is replaced by
    the animal it resolves to; a reference that resolves to nothing is
    left out of the array. *)
Record PopulatedZoo : Type := mkPopulatedZoo {
  pz_id : ObjectId; pz_name : string; pz_location : string;
  pz_animals : list (Doc Animal.t)
}.

Definition populate_animals (db : Db) (z : Doc Zoo.t) : PopulatedZoo :=
  mkPopulatedZoo (_id z) (Zoo.name (fields z)) (Zoo.location (fields z))
    (omap (fun i => findById (Animals db) (Some i)) (Zoo.animals (fields z))).

(** The JSON bodies of the handlers that read. *)
Inductive ReadBody : Type :=
| ReadMessage (message : string)
| PopulatedAnimalJson (animal : PopulatedAnimal)
| PopulatedZooJson (zoo : PopulatedZoo)
| PopulatedZoosJson (zoos : list PopulatedZoo)
| ZooDocJson (zoo : Doc Zoo.t)
| ZooDocsJson (zoos : list (Doc Zoo.t)).

Record ReadResponse : Type := mkReadResponse { read_status : N; read_body : ReadBody }.

(** [router.get('/:id')] of routes/animalRoutes.js. *)
Definition get_animal (db : Db) (id : ObjectId) : ReadResponse :=
  match findById (Animals db) (Some id) with
  | None => mkReadResponse 404 (ReadMessage "Animal no encontrado")
  | Some animal => mkReadResponse 200 (PopulatedAnimalJson (populate_zoo db animal))
  end.

(** [router.get('/')] of the zoo routes. *)
Definition get_zoos (db : Db) : ReadResponse :=
  mkReadResponse 200 (PopulatedZoosJson (populate_animals db <$> docs (Zoos db))).

(** [router.get('/:id')] of the zoo routes. *)
Definition get_zoo (db : Db) (id : ObjectId) : ReadResponse :=
  match findById (Zoos db) (Some id) with
  | None => mkReadResponse 404 (ReadMessage "Zoológico no encontrado")
  | Some zoo => mkReadResponse 200 (PopulatedZooJson (populate_animals db zoo))
  end.

(** The request body as an update of a zoo; an [undefined] field is
    dropped from the update and leaves the stored path as it is. *)
Definition apply_zoo_update (b : ZooBody) (z : Zoo.t) : Zoo.t :=
  Zoo.mk (default (Zoo.name z) (zbody_name b))
         (default (Zoo.location z) (zbody_location b))
         (default (Zoo.animals z) (zbody_animals b)).

(** [Zoo.findByIdAndUpdate(id, req.body, {new: true})]: no validators
    run. *)
Definition Zoo_findByIdAndUpdate (db : Db) (id : ObjectId) (b : ZooBody)
  : Db * option (Doc Zoo.t) :=
  match Zoos db !! id with
  | None => (db, None)
  | Some z =>
      let z' := apply_zoo_update b z in
      (set_Zoos db (<[id := z']> (Zoos db)), Some (id, z'))
  end.

(** [router.put('/:id')] of the zoo routes. *)
Definition put_zoo (db : Db) (id : ObjectId) (b : ZooBody) : Db * Response :=
  match Zoo_findByIdAndUpdate db id b with
  | (db', None) => (db', mkResponse 404 (Message "Zoológico no encontrado"))
  | (db', Some updatedZoo) => (db', mkResponse 200 (ZooJson updatedZoo))
  end.

(** [router.delete('/:id')] of the zoo routes, and [exports.deleteZoo]
    of controllers/zooController.js, which is the same handler. *)
Definition delete_zoo (db : Db) (id : ObjectId) : Db * Response :=
  match findById (Zoos db) (Some id) with
  | None => (db, mkResponse 404 (Message "Zoológico no encontrado"))
  | Some _ =>
      (set_Zoos db (delete id (Zoos db)),
       mkResponse 200 (Message "Zoológico eliminado exitosamente"))
  end.

(** [exports.getZoo] of controllers/zooController.js: the stored
    document, references not populated. *)
Definition getZoo (db : Db) (id : ObjectId) : ReadResponse :=
  match findById (Zoos db) (Some id) with
  | None => mkReadResponse 404 (ReadMessage "Zoológico no encontrado")
  | Some zoo => mkReadResponse 200 (ZooDocJson zoo)
  end.

(** ** Well-formed stores *)

(** The link between animals and zoos, as propositions on lookups. *)
Definition forward_linked (db : Db) : Prop :=
  forall (i z : ObjectId) (a : Animal.t),
    Animals db !! i = Some a -> Animal.zoo a = Some z ->
    exists zoo, Zoos db !! z = Some zoo /\ i ∈ Zoo.animals zoo.

Definition reverse_linked (db : Db) : Prop :=
  forall (z i : ObjectId) (zoo : Zoo.t),
    Zoos db !! z = Some zoo -> i ∈ Zoo.animals zoo ->
    exists a, Animals db !! i = Some a /\ Animal.zoo a = Some z.

(** Every stored document, and every identifier a zoo lists, was
    generated before [nextId]; every stored zoo passes its schema; no two
    stored users have the same username. *)
Definition sound (db : Db) : Prop :=
  (forall i a, Animals db !! i = Some a -> i < nextId db)
  /\ (forall i z, Zoos db !! i = Some z ->
        i < nextId db /\ Zoo.name z <> "" /\ Zoo.location z <> ""
        /\ forall j, j ∈ Zoo.animals z -> j < nextId db)
  /\ (forall i u, Users db !! i = Some u -> i < nextId db)
  /\ (forall i j u v, Users db !! i = Some u -> Users db !! j = Some v ->
        User.username u = User.username v -> i = j).

(** * Properties *)

(** ** Strings and the store *)

Lemma strip_prefix_app (pat s : string) : strip_prefix pat (pat +:+ s) = Some s.
Proof.
  induction pat as [|a pat IH]; simpl; [done|].
  by rewrite Ascii.eqb_refl.
Qed.

(** A header [Bearer <token>] yields the token. *)
Lemma replace_bearer (token : string) : replace "Bearer " "" ("Bearer " +:+ token) = token.
Proof. reflexivity. Qed.

Lemma required_Ok (v : option string) (s : string) :
  required v = Ok s <-> v = Some s /\ s <> "".
Proof.
  unfold required. destruct v as [x|].
  - destruct (String.eqb_spec x "") as [->|Hx]; split.
    + intros [=].
    + by intros [[= <-] Hs].
    + by intros [= <-].
    + by intros [[= <-] _].
  - split; [intros [=]|by intros [[=] _]].
Qed.

Lemma required_Some (s : string) : s <> "" -> required (Some s) = Ok s.
Proof. intros. by apply required_Ok. Qed.

Lemma findById_Some {A : Type} (coll : gmap ObjectId A) (i : ObjectId) (d : Doc A) :
  findById coll (Some i) = Some d <-> _id d = i /\ coll !! i = Some (fields d).
Proof.
  unfold findById, _id, fields. destruct d as [j x]; simpl.
  destruct (coll !! i) as [y|]; simpl; split.
  - by intros [= <- <-].
  - by intros [<- [= <-]].
  - intros [=].
  - by intros [_ [=]].
Qed.

Lemma findById_None {A : Type} (coll : gmap ObjectId A) (i : ObjectId) :
  findById coll (Some i) = None <-> coll !! i = None.
Proof. unfold findById. by destruct (coll !! i). Qed.

Lemma elem_of_docs {A : Type} (coll : gmap ObjectId A) (d : Doc A) :
  d ∈ docs coll <-> coll !! _id d = Some (fields d).
Proof. destruct d as [i x]. apply elem_of_map_to_list. Qed.

Lemma occurrences_app (i : ObjectId) (l k : list ObjectId) :
  occurrences i (l ++ k) = (occurrences i l + occurrences i k)%nat.
Proof. unfold occurrences. by rewrite filter_app, length_app. Qed.

Lemma occurrences_not_elem (i : ObjectId) (l : list ObjectId) :
  i ∉ l -> occurrences i l = 0%nat.
Proof.
  intros Hi. unfold occurrences.
  induction l as [|j l IH]; [done|].
  rewrite not_elem_of_cons in Hi. destruct Hi as [Hne Hi].
  rewrite filter_cons_False by done. by apply IH.
Qed.

Lemma occurrences_filter_ne (i : ObjectId) (l : list ObjectId) :
  occurrences i (filter (fun j => j ≠ i) l) = 0%nat.
Proof.
  apply occurrences_not_elem. rewrite list_elem_of_filter. by intros [Hne _].
Qed.

(** ** Creating an animal *)

(** The mounted handler never writes the zoo collection. *)
Lemma post_animal_Zoos (db : Db) (b : AnimalBody) :
  Zoos (post_animal db b).1 = Zoos db.
Proof.
  unfold post_animal, Animal_save_new.
  destruct (findById (Zoos db) (body_zoo b)); [|done].
  destruct (required (body_name b)); [|done]; simpl.
  by destruct (required (body_species b)).
Qed.

(** Both handlers answer 404 when the supplied zoo does not resolve. *)
Lemma post_animal_unknown_zoo (db : Db) (b : AnimalBody) (z : ObjectId) :
  body_zoo b = Some z -> Zoos db !! z = None ->
  post_animal db b = (db, mkResponse 404 (Message "Zoológico no encontrado")).
Proof.
  intros Hz Hnone. unfold post_animal. rewrite Hz.
  by rewrite (proj2 (findById_None _ _) Hnone).
Qed.

Lemma createAnimal_unknown_zoo (db : Db) (name species : string) (z : ObjectId) :
  name <> "" -> species <> "" -> Zoos db !! z = None ->
  (createAnimal db (mkAnimalBody (Some name) (Some species) (Some z))).2
  = mkResponse 404 (Message "Zoológico no encontrado").
Proof.
  intros Hn Hs Hnone. unfold createAnimal, Animal_save_new; simpl.
  rewrite (required_Some _ Hn), (required_Some _ Hs); simpl.
  by rewrite Hnone.
Qed.

(** The controller does what the specification asks for: on success the
    animal is stored with the supplied zoo as its reference and the zoo
    lists the new identifier exactly once. *)
Lemma createAnimal_links_zoo (db : Db) (name species : string) (z : ObjectId)
  (zoo : Zoo.t) :
  name <> "" -> species <> "" ->
  Zoos db !! z = Some zoo ->
  Zoo.name zoo <> "" -> Zoo.location zoo <> "" ->
  nextId db ∉ Zoo.animals zoo ->
  let served := createAnimal db (mkAnimalBody (Some name) (Some species) (Some z)) in
  served.2 = mkResponse 201 (AnimalJson (nextId db, Animal.mk name species (Some z)))
  /\ Animals served.1 !! nextId db = Some (Animal.mk name species (Some z))
  /\ exists zoo', Zoos served.1 !! z = Some zoo'
                  /\ occurrences (nextId db) (Zoo.animals zoo') = 1%nat.
Proof.
  intros Hn Hs Hz Hzn Hzl Hfresh. unfold createAnimal, Animal_save_new; simpl.
  rewrite (required_Some _ Hn), (required_Some _ Hs); simpl.
  rewrite Hz; simpl. unfold Zoo_save; simpl.
  rewrite (required_Some _ Hzn), (required_Some _ Hzl); simpl.
  split; [done|]. split; [by rewrite lookup_insert_eq|].
  eexists. split; [by rewrite lookup_insert_eq|]. simpl.
  rewrite occurrences_app, (occurrences_not_elem _ _ Hfresh).
  unfold occurrences. by rewrite filter_cons_True.
Qed.

(** C1 (defect in routes/animalRoutes.js). POST /api/animals with
    [{name: "Leo", species: "lion", zoo: 0}] on a store whose zoo [0]
    houses nothing answers 201 and stores the animal with zoo reference
    [0], but zoo [0] is left as it was: the new identifier occurs zero
    times in its collection and the link no longer holds. *)
Theorem post_animal_leaves_zoo_collection :
  let served := post_animal db_city_zoo leo_body in
  linked db_city_zoo = true
  /\ served.2 = mkResponse 201 (AnimalJson (1, leo))
  /\ Animals served.1 !! 1 = Some leo
  /\ Zoos served.1 !! 0 = Some city_zoo
  /\ occurrences 1 (Zoo.animals city_zoo) = 0%nat
  /\ linked served.1 = false.
Proof. vm_compute. repeat split; reflexivity. Qed.

(** On the same request the controller lists the new animal in zoo [0]. *)
Lemma createAnimal_on_city_zoo :
  let served := createAnimal db_city_zoo leo_body in
  served.2 = mkResponse 201 (AnimalJson (1, leo))
  /\ Zoos served.1 !! 0 = Some (Zoo.mk "City Zoo" "Springfield" [1])
  /\ linked served.1 = true.
Proof. vm_compute. repeat split; reflexivity. Qed.

(** ** Deleting an animal *)

(** Both handlers answer 404 when the animal does not resolve, and leave
    the store as it is. *)
Lemma delete_animal_unknown (db : Db) (id : ObjectId) :
  Animals db !! id = None ->
  delete_animal db id = (db, mkResponse 404 (Message "Animal no encontrado"))
  /\ deleteAnimal db id = (db, mkResponse 404 (Message "Animal no encontrado")).
Proof.
  intros Hnone. unfold delete_animal, deleteAnimal.
  by rewrite (proj2 (findById_None _ _) Hnone).
Qed.

(** The mounted handler never writes the zoo collection. *)
Lemma delete_animal_Zoos (db : Db) (id : ObjectId) :
  Zoos (delete_animal db id).1 = Zoos db.
Proof.
  unfold delete_animal.
  destruct (findById (Animals db) (Some id)) as [animal|]; [|done].
  by destruct (findById (Zoos db) (Animal.zoo (fields animal))).
Qed.

(** The mounted handler cannot delete an animal that has no zoo
    reference, as every animal created through /no-zoo. *)
Lemma delete_animal_without_zoo (db : Db) (id : ObjectId) (a : Animal.t) :
  Animals db !! id = Some a -> Animal.zoo a = None ->
  delete_animal db id = (db, mkResponse 404 (Message "Zoológico no encontrado")).
Proof.
  intros Ha Hzoo. unfold delete_animal, findById. rewrite Ha; simpl.
  by rewrite Hzoo.
Qed.

(** The controller does what the specification asks for: the identifier
    is removed from the collection of the zoo the animal refers to, and
    the animal is deleted. *)
Lemma deleteAnimal_unlinks_zoo (db : Db) (id z : ObjectId) (a : Animal.t)
  (zoo : Zoo.t) :
  Animals db !! id = Some a -> Animal.zoo a = Some z ->
  Zoos db !! z = Some zoo ->
  Zoo.name zoo <> "" -> Zoo.location zoo <> "" ->
  let served := deleteAnimal db id in
  served.2 = mkResponse 200 (Message "Animal eliminado")
  /\ Animals served.1 !! id = None
  /\ exists zoo', Zoos served.1 !! z = Some zoo'
                  /\ occurrences id (Zoo.animals zoo') = 0%nat.
Proof.
  intros Ha Hz Hzoo Hzn Hzl. unfold deleteAnimal, findById.
  rewrite Ha; simpl. rewrite Hz, Hzoo; simpl.
  unfold Zoo_save; simpl.
  rewrite (required_Some _ Hzn), (required_Some _ Hzl); simpl.
  split; [done|]. split; [by rewrite lookup_delete_eq|].
  eexists. split; [by rewrite lookup_insert_eq|]. simpl.
  apply occurrences_filter_ne.
Qed.

(** The controller tolerates a reference to a zoo that is gone. *)
Lemma deleteAnimal_tolerates_missing_zoo (db : Db) (id z : ObjectId) (a : Animal.t) :
  Animals db !! id = Some a -> Animal.zoo a = Some z ->
  Zoos db !! z = None ->
  let served := deleteAnimal db id in
  served.2 = mkResponse 200 (Message "Animal eliminado")
  /\ Animals served.1 !! id = None.
Proof.
  intros Ha Hz Hzoo. unfold deleteAnimal, findById.
  rewrite Ha; simpl. rewrite Hz, Hzoo; simpl.
  split; [done|]. by rewrite lookup_delete_eq.
Qed.

(** C2 (defect in routes/animalRoutes.js). DELETE /api/animals/1 on a
    store where zoo [0] houses animal [1] answers 200 and deletes the
    animal, but zoo [0] still lists [1]; and on a store where the zoo
    animal [1] refers to is gone it answers 404 and keeps the animal. *)
Theorem delete_animal_keeps_zoo_collection :
  let served := delete_animal db_leo_housed 1 in
  linked db_leo_housed = true
  /\ served.2 = mkResponse 200 (Message "Animal eliminado exitosamente")
  /\ Animals served.1 !! 1 = None
  /\ Zoos served.1 !! 0 = Some (Zoo.mk "City Zoo" "Springfield" [1])
  /\ linked served.1 = false
  /\ delete_animal db_leo_orphaned 1
     = (db_leo_orphaned, mkResponse 404 (Message "Zoológico no encontrado")).
Proof. vm_compute. repeat split; reflexivity. Qed.

(** On the same requests the controller empties the collection, and
    deletes the animal whose zoo is gone. *)
Lemma deleteAnimal_on_leo :
  let served := deleteAnimal db_leo_housed 1 in
  served.2 = mkResponse 200 (Message "Animal eliminado")
  /\ Animals served.1 !! 1 = None
  /\ Zoos served.1 !! 0 = Some city_zoo
  /\ linked served.1 = true
  /\ Animals (deleteAnimal db_leo_orphaned 1).1 !! 1 = None.
Proof. vm_compute. repeat split; reflexivity. Qed.

(** ** Updating an animal *)

(** Neither handler writes the zoo collection. *)
Lemma put_animal_Zoos (db : Db) (id : ObjectId) (b : AnimalBody) :
  Zoos (put_animal db id b).1 = Zoos db.
Proof.
  unfold put_animal, Animal_findByIdAndUpdate.
  destruct (findById (Zoos db) (body_zoo b)); [|done].
  by destruct (Animals db !! id).
Qed.

Lemma updateAnimal_Zoos (db : Db) (id : ObjectId) (b : AnimalBody) :
  Zoos (updateAnimal db id b).1 = Zoos db.
Proof.
  unfold updateAnimal, Animal_findByIdAndUpdate.
  by destruct (Animals db !! id).
Qed.

(** The mounted handler resolves the target zoo before it updates. *)
Lemma put_animal_unknown_zoo (db : Db) (id z : ObjectId) (b : AnimalBody) :
  body_zoo b = Some z -> Zoos db !! z = None ->
  put_animal db id b = (db, mkResponse 404 (Message "zoologico no encontrado")).
Proof.
  intros Hz Hnone. unfold put_animal. rewrite Hz.
  by rewrite (proj2 (findById_None _ _) Hnone).
Qed.

(** C4 (defect in routes/animalRoutes.js and in
    controllers/animalController.js). PUT /api/animals/1 with
    [{name: "Leo", species: "lion", zoo: 2}] on a store where zoo [0]
    houses animal [1] and zoo [2] houses nothing answers 200 and moves
    the animal's reference to [2], but zoo [2] does not list [1] and zoo
    [0] still does: the link, which held before, is broken. The
    controller's update does the same. *)
Theorem put_animal_breaks_link :
  let b := mkAnimalBody (Some "Leo") (Some "lion") (Some 2) in
  let moved := Animal.mk "Leo" "lion" (Some 2) in
  let served := put_animal db_two_zoos 1 b in
  linked db_two_zoos = true
  /\ served.2 = mkResponse 200 (AnimalJson (1, moved))
  /\ Animals served.1 !! 1 = Some moved
  /\ Zoos served.1 !! 2 = Some (Zoo.mk "Safari Park" "Shelbyville" [])
  /\ Zoos served.1 !! 0 = Some (Zoo.mk "City Zoo" "Springfield" [1])
  /\ linked served.1 = false
  /\ updateAnimal db_two_zoos 1 b = served.
Proof. vm_compute. repeat split; reflexivity. Qed.

(** ** Reading the animals of a zoo *)

Lemma Animal_find_by_zoo_nil (db : Db) (zooId : ObjectId) :
  houses_none db zooId <-> Animal_find_by_zoo db zooId = [].
Proof.
  unfold houses_none, Animal_find_by_zoo. split.
  - intros Hnone.
    destruct (filter _ (docs (Animals db))) as [|d l] eqn:Hf; [done|].
    assert (Hd : d ∈ d :: l) by left.
    rewrite <- Hf, list_elem_of_filter, elem_of_docs in Hd.
    destruct Hd as [Hzoo Hd]. by destruct (Hnone _ _ Hd).
  - intros Hnil i a Hi Hzoo.
    eapply (filter_nil_not_elem_of _ _ (i, a)); [exact Hnil|exact Hzoo|].
    by apply elem_of_docs.
Qed.

(** C9. GET /api/animals/zoo/:zooId answers 404, not an empty list, when
    no animal's zoo reference is [zooId]; the answer is the same for
    every such identifier, whether or not a zoo is stored under it. *)
Theorem get_animals_by_zoo_without_animals (db : Db) (zooId : ObjectId) :
  houses_none db zooId ->
  get_animals_by_zoo db zooId
  = mkResponse 404 (Message "No se encontraron animales para este zoológico")
  /\ forall zooId' : ObjectId,
       houses_none db zooId' ->
       get_animals_by_zoo db zooId' = get_animals_by_zoo db zooId.
Proof.
  assert (H404 : forall z, houses_none db z ->
            get_animals_by_zoo db z
            = mkResponse 404 (Message "No se encontraron animales para este zoológico")).
  { intros z Hz. unfold get_animals_by_zoo.
    by rewrite (proj1 (Animal_find_by_zoo_nil db z) Hz). }
  intros Hnone. split; [by apply H404|].
  intros z' Hz'. by rewrite !H404.
Qed.

(** An existing zoo that houses nothing ([0]) and an identifier under
    which no zoo is stored ([7]) get the same 404. *)
Lemma get_animals_by_zoo_without_animals_witness :
  is_Some (Zoos db_city_zoo !! 0) /\ Zoos db_city_zoo !! 7 = None
  /\ get_animals_by_zoo db_city_zoo 0
     = mkResponse 404 (Message "No se encontraron animales para este zoológico")
  /\ get_animals_by_zoo db_city_zoo 7 = get_animals_by_zoo db_city_zoo 0.
Proof.
  assert (Hnone : forall z, houses_none db_city_zoo z).
  { intros z i a Hi. vm_compute in Hi. discriminate Hi. }
  split; [by eexists|]. split; [reflexivity|].
  destruct (get_animals_by_zoo_without_animals db_city_zoo 0 (Hnone 0)) as [H404 Hsame].
  split; [exact H404|]. exact (Hsame 7 (Hnone 7)).
Defined.

(** The 404 is given in that case only: when some animal refers to the
    zoo, the answer is 200 with the animals. *)
Lemma get_animals_by_zoo_with_animals (db : Db) (zooId i : ObjectId) (a : Animal.t) :
  Animals db !! i = Some a -> Animal.zoo a = Some zooId ->
  get_animals_by_zoo db zooId
  = mkResponse 200 (AnimalsJson (populate_zoo db <$> Animal_find_by_zoo db zooId))
  /\ Animal_find_by_zoo db zooId <> [].
Proof.
  intros Hi Hzoo.
  assert (Hne : Animal_find_by_zoo db zooId <> []).
  { intros Hnil. apply Animal_find_by_zoo_nil in Hnil. by destruct (Hnil _ _ Hi). }
  split; [|done]. unfold get_animals_by_zoo.
  by destruct (Animal_find_by_zoo db zooId).
Qed.

(** ** Creating a zoo *)

Section CreateZoo.

Variable find_in_undefined : Db -> result (list (Doc Animal.t)).

Lemma length_resolved (db : Db) (ids : list ObjectId) :
  length (resolved db ids) = length (Animal_find_in db ids).
Proof. apply length_fmap. Qed.

Lemma NoDup_resolved (db : Db) (ids : list ObjectId) : NoDup (resolved db ids).
Proof.
  unfold resolved, Animal_find_in, docs.
  eapply sublist_NoDup; [apply (NoDup_fst_map_to_list (Animals db))|].
  apply fmap_sublist, sublist_filter.
Qed.

Lemma elem_of_resolved (db : Db) (ids : list ObjectId) (i : ObjectId) :
  i ∈ resolved db ids <-> i ∈ ids /\ is_Some (Animals db !! i).
Proof.
  unfold resolved, Animal_find_in. rewrite list_elem_of_fmap. split.
  - intros [d [-> Hd]]. rewrite list_elem_of_filter, elem_of_docs in Hd.
    destruct Hd as [Hin Hd]. split; [done|by eexists].
  - intros [Hin [a Ha]]. exists (i, a). split; [done|].
    rewrite list_elem_of_filter, elem_of_docs. by split.
Qed.

Lemma resolved_submseteq (db : Db) (ids : list ObjectId) : resolved db ids ⊆+ ids.
Proof.
  apply NoDup_submseteq; [apply NoDup_resolved|].
  intros i Hi. by apply elem_of_resolved in Hi as [? _].
Qed.

(** When the counts agree, the resolved identifiers are the requested
    ones, up to order. *)
Lemma resolved_Permutation (db : Db) (ids : list ObjectId) :
  length (Animal_find_in db ids) = length ids -> resolved db ids ≡ₚ ids.
Proof.
  intros Hlen. apply submseteq_length_Permutation; [apply resolved_submseteq|].
  rewrite length_resolved. lia.
Qed.

(** The count check of the handler passes exactly when every requested
    identifier resolves and none is requested twice. *)
Lemma count_check (db : Db) (ids : list ObjectId) :
  length (Animal_find_in db ids) = length ids
  <-> NoDup ids /\ forall i, i ∈ ids -> is_Some (Animals db !! i).
Proof.
  split.
  - intros Hlen. pose proof (resolved_Permutation db ids Hlen) as Hperm. split.
    + rewrite <- Hperm. apply NoDup_resolved.
    + intros i Hi. rewrite <- Hperm in Hi. by apply elem_of_resolved in Hi as [_ ?].
  - intros [Hnd Hall]. rewrite <- length_resolved. apply Permutation_length.
    apply NoDup_Permutation; [apply NoDup_resolved|done|].
    intros i. rewrite elem_of_resolved. split; [by intros [? _]|].
    intros Hi. split; [done|by apply Hall].
Qed.

Lemma post_zoo_count_mismatch (db : Db) (name location : option string)
  (ids : list ObjectId) :
  length (Animal_find_in db ids) <> length ids ->
  post_zoo find_in_undefined db (mkZooBody name location (Some ids))
  = (db, mkResponse 400 (Message "Uno o más animales no existen en la base de datos")).
Proof.
  intros Hlen. unfold post_zoo; simpl.
  by destruct (Nat.eqb_spec (length (Animal_find_in db ids)) (length ids)).
Qed.

(** C5. POST /api/zoos with a list of candidate identifiers. If one of
    them does not resolve to a stored animal, and whenever the resolved
    count differs from the requested count, the answer is 400 (one or
    more animals do not exist) and the store is as before. Otherwise,
    for a name and location that pass the schema, a zoo is stored under a
    fresh identifier and returned with 201; its collection is the list
    of resolved identifiers, which has the same elements as the
    requested list, each resolving to a stored animal. *)
Theorem post_zoo_with_candidates (db : Db) (name location : option string)
  (ids : list ObjectId) :
  let served := post_zoo find_in_undefined db (mkZooBody name location (Some ids)) in
  let rejected :=
    (db, mkResponse 400 (Message "Uno o más animales no existen en la base de datos")) in
  ((exists i, i ∈ ids /\ Animals db !! i = None) -> served = rejected)
  /\ (length (Animal_find_in db ids) <> length ids -> served = rejected)
  /\ (length (Animal_find_in db ids) = length ids ->
      forall n l : string, required name = Ok n -> required location = Ok l ->
      let zoo := Zoo.mk n l (resolved db ids) in
      served = (bump (set_Zoos db (<[nextId db := zoo]> (Zoos db))),
                mkResponse 201 (ZooJson (nextId db, zoo)))
      /\ Zoos served.1 !! nextId db = Some zoo
      /\ Zoo.animals zoo ≡ₚ ids
      /\ forall i, i ∈ Zoo.animals zoo -> is_Some (Animals db !! i)).
Proof.
  simpl. split; [|split].
  - intros [i [Hin Hnone]]. apply post_zoo_count_mismatch. intros Hlen.
    apply count_check in Hlen as [_ Hall].
    destruct (Hall i Hin) as [a Ha]. congruence.
  - apply post_zoo_count_mismatch.
  - intros Hlen n l Hn Hl.
    assert (Hserved :
      post_zoo find_in_undefined db (mkZooBody name location (Some ids))
      = (bump (set_Zoos db (<[nextId db := Zoo.mk n l (resolved db ids)]> (Zoos db))),
         mkResponse 201 (ZooJson (nextId db, Zoo.mk n l (resolved db ids))))).
    { unfold post_zoo, Zoo_save_new; simpl.
      rewrite Hlen, Nat.eqb_refl, Hn, Hl. reflexivity. }
    rewrite Hserved; simpl. split; [done|]. split; [by rewrite lookup_insert_eq|].
    split; [by apply resolved_Permutation|].
    intros i Hi. by apply elem_of_resolved in Hi as [_ ?].
Qed.

(** C10. POST /api/zoos with a body that has no [animals]: whatever the
    query on the undefined list does, reading [animals.length] throws at
    the latest, the handler's [catch] answers 400 and nothing is stored. *)
Theorem post_zoo_without_animals (db : Db) (name location : option string) :
  exists e : string,
    post_zoo find_in_undefined db (mkZooBody name location None)
    = (db, mkResponse 400 (MessageError "Error al crear el zoológico" e)).
Proof.
  unfold post_zoo; simpl.
  destruct (find_in_undefined db) as [found|e]; simpl; by eexists.
Qed.

(** A zoo that houses nothing is created by sending the empty list. *)
Lemma post_zoo_empty_list (db : Db) (n l : string) :
  n <> "" -> l <> "" ->
  post_zoo find_in_undefined db (mkZooBody (Some n) (Some l) (Some []))
  = (bump (set_Zoos db (<[nextId db := Zoo.mk n l []]> (Zoos db))),
     mkResponse 201 (ZooJson (nextId db, Zoo.mk n l []))).
Proof.
  intros Hn Hl. unfold post_zoo, Zoo_save_new; simpl.
  rewrite (required_Some _ Hn), (required_Some _ Hl).
  assert (Hnil : Animal_find_in db [] = []).
  { unfold Animal_find_in.
    destruct (filter _ (docs (Animals db))) as [|d k] eqn:Hf; [done|].
    assert (Hd : d ∈ d :: k) by left.
    rewrite <- Hf, list_elem_of_filter in Hd. destruct Hd as [Hd _].
    by apply elem_of_nil in Hd. }
  by rewrite Hnil.
Qed.

End CreateZoo.

(** POST /api/zoos on a store holding animal [1] only: the list [[1]] is
    accepted, the list [[1; 9]] is rejected. *)
Lemma post_zoo_with_candidates_witness :
  let find_in_undefined := fun _ : Db => Ok [] in
  (post_zoo find_in_undefined db_leo_orphaned
     (mkZooBody (Some "Safari Park") (Some "Shelbyville") (Some [1; 9]))
   = (db_leo_orphaned,
      mkResponse 400 (Message "Uno o más animales no existen en la base de datos")))
  /\ Zoos (post_zoo find_in_undefined db_leo_orphaned
             (mkZooBody (Some "Safari Park") (Some "Shelbyville") (Some [1]))).1 !! 2
     = Some (Zoo.mk "Safari Park" "Shelbyville" (resolved db_leo_orphaned [1])).
Proof.
  intros find_in_undefined. split.
  - destruct (post_zoo_with_candidates find_in_undefined db_leo_orphaned
                (Some "Safari Park") (Some "Shelbyville") [1; 9]) as [Hrejected _].
    apply Hrejected. exists 9. split; [repeat constructor|reflexivity].
  - destruct (post_zoo_with_candidates find_in_undefined db_leo_orphaned
                (Some "Safari Park") (Some "Shelbyville") [1]) as [_ [_ Hcreated]].
    destruct (Hcreated eq_refl "Safari Park" "Shelbyville" eq_refl eq_refl)
      as [_ [Hstored _]].
    exact Hstored.
Defined.

(** ** Identity *)

Section IdentityProperties.

Context {bcrypt : bcryptjs} {jwt : jsonwebtoken}.

(** The modules that destructure the export hold the model; the module
    that does not holds an object without [findOne]. *)
Lemma model_collection_destructured (method : string) (db : Db) :
  model_collection destructured_User method db = Ok (Users db).
Proof. reflexivity. Qed.

Lemma model_collection_required (method : string) (db : Db) :
  model_collection required_User method db
  = Throw ("User." +:+ method +:+ " is not a function").
Proof. reflexivity. Qed.

(** *** Authorize *)

(** A header that leaves no token after the scheme prefix is answered
    401. *)
Lemma authMiddleware_no_token (env : Env) (db : Db) (header : string) :
  replace "Bearer " "" header = "" ->
  authMiddleware env db (Some header)
  = Respond (mkResponse 401 (Message "Autenticación requerida")).
Proof. intros Htok. unfold authMiddleware. by rewrite Htok. Qed.

(** A token that [jwt.verify] rejects (malformed, expired, signed with
    another key) is answered 401. *)
Lemma authMiddleware_rejected_token (env : Env) (db : Db) (header e : string) :
  jwt_verify (replace "Bearer " "" header) (JWT_SECRET env) (now env) = Throw e ->
  exists r, authMiddleware env db (Some header) = Respond r /\ status r = 401.
Proof.
  intros Hv. unfold authMiddleware.
  destruct (negb (truthy (Some (replace "Bearer " "" header)))); [by eexists|].
  rewrite Hv; simpl. by eexists.
Qed.

(** A verified token whose user is gone is answered 404. *)
Lemma authMiddleware_unknown_user (env : Env) (db : Db) (header : string)
  (decoded : Jwt.payload) :
  replace "Bearer " "" header <> "" ->
  jwt_verify (replace "Bearer " "" header) (JWT_SECRET env) (now env) = Ok decoded ->
  Users db !! Jwt.id decoded = None ->
  authMiddleware env db (Some header)
  = Respond (mkResponse 404 (Message "Usuario no encontrado")).
Proof.
  intros Htok Hv Hnone. unfold authMiddleware, truthy.
  destruct (String.eqb_spec (replace "Bearer " "" header) ""); [done|]; simpl.
  rewrite Hv; simpl. rewrite ?model_collection_destructured; simpl.
  by rewrite Hnone.
Qed.


(** Nothing else passes: [req.user] is only ever a stored record, found
    under the identifier of a token that [jwt.verify] accepted. *)
Lemma authMiddleware_Next (env : Env) (db : Db) (authorization : option string)
  (user : Doc User.t) :
  authMiddleware env db authorization = Next user ->
  exists header decoded,
    authorization = Some header
    /\ jwt_verify (replace "Bearer " "" header) (JWT_SECRET env) (now env) = Ok decoded
    /\ _id user = Jwt.id decoded
    /\ Users db !! _id user = Some (fields user).
Proof.
  unfold authMiddleware. destruct authorization as [header|]; [|done].
  destruct (negb (truthy (Some (replace "Bearer " "" header)))); [done|].
  destruct (jwt_verify _ _ _) as [decoded|e] eqn:Hv; simpl; [|done].
  rewrite ?model_collection_destructured; simpl.
  destruct (Users db !! Jwt.id decoded) as [u|] eqn:Hu; simpl; [|done].
  intros [= <-]. by exists header, decoded.
Qed.

(** C3 (defect in middlewares/auth.js). A request without an
    Authorization header is not answered 401: [replace] is called on
    [undefined] before the [try] block, the TypeError escapes the
    middleware and no response is sent, by the middleware or by a route
    it protects. A header that carries the scheme prefix and no token is
    answered 401. *)
Theorem authMiddleware_without_header (env : Env) (db : Db)
  (handler : Doc User.t -> Db * Response) :
  authMiddleware env db None
  = Uncaught "Cannot read properties of undefined (reading 'replace')"
  /\ (forall r : Response, authMiddleware env db None <> Respond r)
  /\ protected env db None handler
     = (db, Unhandled "Cannot read properties of undefined (reading 'replace')")
  /\ authMiddleware env db (Some "Bearer ")
     = Respond (mkResponse 401 (Message "Autenticación requerida")).
Proof.
  split; [reflexivity|]. split; [intros r Hr; discriminate Hr|].
  split; reflexivity.
Qed.

(** *** Login *)

Lemma findOne_username_None (coll : gmap ObjectId User.t) (u : string) :
  findOne_username coll (Some u) = None <->
  forall i usr, coll !! i = Some usr -> User.username usr <> u.
Proof.
  unfold findOne_username. split.
  - intros Hnone i usr Hi Hu.
    destruct (filter _ (docs coll)) as [|d k] eqn:Hf; [|done].
    eapply (filter_nil_not_elem_of _ _ (i, usr)); [exact Hf|exact Hu|].
    by apply elem_of_docs.
  - intros Hall.
    destruct (filter _ (docs coll)) as [|d k] eqn:Hf; [done|].
    assert (Hd : d ∈ d :: k) by left.
    rewrite <- Hf, list_elem_of_filter, elem_of_docs in Hd.
    destruct Hd as [Hu Hd]. by destruct (Hall _ _ Hd).
Qed.

(** A document found by username is a stored document with that
    username. *)
Lemma findOne_username_Some (coll : gmap ObjectId User.t) (username : option string)
  (user : Doc User.t) :
  findOne_username coll username = Some user ->
  coll !! _id user = Some (fields user)
  /\ username = Some (User.username (fields user)).
Proof.
  unfold findOne_username. destruct username as [u|]; [|done].
  destruct (filter _ (docs coll)) as [|d k] eqn:Hf; [done|].
  intros [= ->].
  assert (Hd : user ∈ user :: k) by left.
  rewrite <- Hf, list_elem_of_filter, elem_of_docs in Hd.
  destruct Hd as [Hu Hd]. by rewrite Hu.
Qed.


(** As the controller module binds [User], the query throws for every
    username and password that pass the presence check, and the [catch]
    answers 500. *)
Lemma login_server_error (env : Env) (db : Db) (b : UserBody) :
  truthy (body_username b) = true -> truthy (body_password b) = true ->
  login env db b = mkResponse 500 (Message "Server error").
Proof.
  intros Hu Hp. unfold login, login_with. by rewrite Hu, Hp.
Qed.

(** Whatever [User] is bound to, the body of [login] gives the same
    answer for a username that is not stored and for a stored username
    with a password that does not match. *)
Lemma login_with_indistinguishable (UserRef : JsValue) (env : Env) (db : Db)
  (u1 p1 u2 p2 : string) (user : Doc User.t) :
  u1 <> "" -> p1 <> "" -> u2 <> "" -> p2 <> "" ->
  findOne_username (Users db) (Some u1) = None ->
  findOne_username (Users db) (Some u2) = Some user ->
  compareHash p2 (User.password (fields user)) = false ->
  login_with UserRef env db (mkUserBody (Some u1) (Some p1))
  = login_with UserRef env db (mkUserBody (Some u2) (Some p2)).
Proof.
  intros Hu1 Hp1 Hu2 Hp2 Hnone Hsome Hcmp. unfold login_with, truthy; simpl.
  destruct (String.eqb_spec u1 ""); [done|]. destruct (String.eqb_spec p1 ""); [done|].
  destruct (String.eqb_spec u2 ""); [done|]. destruct (String.eqb_spec p2 ""); [done|].
  simpl. unfold model_collection. destruct UserRef as [|name|models]; simpl; [done| |done].
  destruct (String.eqb name "User"); simpl; [|done].
  by rewrite Hnone, Hsome; simpl; rewrite Hcmp.
Qed.

(** With [User] bound to the model, that answer is 400 "Invalid
    credentials" in both cases. *)
Lemma login_with_model_invalid_credentials (env : Env) (db : Db) (u p : string) :
  u <> "" -> p <> "" ->
  (findOne_username (Users db) (Some u) = None
   \/ exists user, findOne_username (Users db) (Some u) = Some user
                   /\ compareHash p (User.password (fields user)) = false) ->
  login_with destructured_User env db (mkUserBody (Some u) (Some p))
  = mkResponse 400 (Message "Invalid credentials").
Proof.
  intros Hu Hp Hcase. unfold login_with, truthy; simpl.
  destruct (String.eqb_spec u ""); [done|]. destruct (String.eqb_spec p ""); [done|].
  simpl. rewrite ?model_collection_destructured; simpl.
  destruct Hcase as [Hnone|[user [Hsome Hcmp]]].
  - by rewrite Hnone.
  - by rewrite Hsome; simpl; rewrite Hcmp.
Qed.

(** C6 (defect in controllers/authController.js, the one of C7). On
    every store, so whether or not the username is stored and whatever
    the stored hash is, login is answered 500 "Server error", not with
    the credentials failure: the module binds [User] to the exports
    object of the user model, [User.findOne] is not a function and the
    [catch] answers. The two answers are the same. *)
Theorem login_failures_are_server_errors (env : Env) (db : Db) :
  login env db (mkUserBody (Some "ghost") (Some "pw1"))
  = mkResponse 500 (Message "Server error")
  /\ login env db (mkUserBody (Some "juan123") (Some "wrong"))
     = mkResponse 500 (Message "Server error").
Proof. split; by apply login_server_error. Qed.

(** *** Register, then login, then authorize *)



(** C7 (defect in controllers/authController.js). Register and then
    login with the same username and password does not succeed: whatever
    the registration left in the store, [login] is answered 500 "Server
    error" and no token, because the module binds [User] to the exports
    object of the user model and [User.findOne] is not a function. With
    the test doubles, registration of juan123 / pw1 on the empty store
    answers 201 and stores the user under [0]; the login that follows is
    answered 500, where the same handler body with [User] bound to the
    model answers 200 with a token. *)
Theorem register_then_login_is_server_error (env : Env) (db : Db) (rnd : Entropy) :
  let b := mkUserBody (Some "juan123") (Some "pw1") in
  login env (register env db b rnd).1 b = mkResponse 500 (Message "Server error")
  /\ (let env0 := mkEnv "secret" 1000 in
      let registered := @register fake_bcrypt fake_jwt env0 empty_db b 7 in
      registered.2 = mkResponse 201 (TokenJson "secret.0")
      /\ Users registered.1 !! 0 = Some (User.mk "juan123" "$2a$10$3")
      /\ @login fake_bcrypt fake_jwt env0 registered.1 b
         = mkResponse 500 (Message "Server error")
      /\ @login_with fake_bcrypt fake_jwt destructured_User env0 registered.1 b
         = mkResponse 200 (TokenJson "secret.0")).
Proof.
  split; [by apply login_server_error|].
  vm_compute. repeat split; reflexivity.
Qed.

(** *** What is written to the password field *)

Lemma register_Users (env : Env) (db : Db) (b : UserBody) (rnd : Entropy)
  (i : ObjectId) (u' : User.t) :
  Users (register env db b rnd).1 !! i = Some u' ->
  Users db !! i = Some u'
  \/ exists plain, body_password b = Some plain
                   /\ User.password u' = hashSalt plain (genSalt 10 rnd).
Proof.
  unfold register, bcrypt_hash, User_save_new.
  destruct (body_password b) as [plain|]; simpl; [|by left].
  destruct (required (body_username b)) as [u|]; simpl; [|by left].
  destruct (required (Some (hashSalt plain (genSalt 10 rnd)))) as [h|] eqn:Hh;
    simpl; [|by left].
  apply required_Ok in Hh as [[= <-] _].
  destruct (findOne_username (Users db) (Some u)); simpl; [by left|].
  rewrite lookup_insert. case_decide; [|by left].
  intros [= <-]. right. by exists plain.
Qed.

Lemma change_password_handler_Users (db : Db) (b : ChangePasswordBody)
  (rnd : Entropy) (user : Doc User.t) (i : ObjectId) (u' : User.t) :
  Users (change_password_handler db b rnd user).1 !! i = Some u' ->
  Users db !! i = Some u'
  \/ exists plain, cp_newPassword b = Some plain
                   /\ User.password u' = hashSalt plain (genSalt 10 rnd).
Proof.
  unfold change_password_handler, bcrypt_compare, bcrypt_hash, User_save.
  destruct (cp_oldPassword b) as [old|]; simpl; [|by left].
  destruct (compareHash old (User.password (fields user))); simpl; [|by left].
  destruct (cp_newPassword b) as [plain|]; simpl; [|by left].
  destruct (required (Some (User.username (fields user)))); simpl; [|by left].
  destruct (required (Some (hashSalt plain (genSalt 10 rnd)))); simpl; [|by left].
  rewrite lookup_insert. case_decide; [|by left].
  intros [= <-]. right. by exists plain.
Qed.

Lemma change_password_Users (env : Env) (db : Db) (authorization : option string)
  (b : ChangePasswordBody) (rnd : Entropy) (i : ObjectId) (u' : User.t) :
  Users (change_password env db authorization b rnd).1 !! i = Some u' ->
  Users db !! i = Some u'
  \/ exists plain, cp_newPassword b = Some plain
                   /\ User.password u' = hashSalt plain (genSalt 10 rnd).
Proof.
  unfold change_password, protected.
  destruct (authMiddleware env db authorization) as [r|user|e]; simpl;
    [by left| |by left].
  apply change_password_handler_Users.
Qed.

Lemma reset_password_Users (db : Db) (b : ResetPasswordBody) (rnd : Entropy)
  (i : ObjectId) (u' : User.t) :
  Users (reset_password db b rnd).1 !! i = Some u' ->
  Users db !! i = Some u'
  \/ exists plain, rp_newPassword b = Some plain
                   /\ User.password u' = hashSalt plain (genSalt 10 rnd).
Proof.
  unfold reset_password, bcrypt_hash, User_save.
  rewrite model_collection_destructured; simpl.
  destruct (findOne_username (Users db) (rp_username b)) as [user|]; simpl; [|by left].
  destruct (rp_newPassword b) as [plain|]; simpl; [|by left].
  destruct (required (Some (User.username (fields user)))); simpl; [|by left].
  destruct (required (Some (hashSalt plain (genSalt 10 rnd)))); simpl; [|by left].
  rewrite lookup_insert. case_decide; [|by left].
  intros [= <-]. right. by exists plain.
Qed.

Lemma delete_user_Users (db : Db) (id i : ObjectId) (u' : User.t) :
  Users (delete_user db id).1 !! i = Some u' -> Users db !! i = Some u'.
Proof.
  unfold delete_user. rewrite model_collection_destructured.
  destruct (findById (Users db) (Some id)); simpl; [|done].
  intros Hi. by apply lookup_delete_Some in Hi as [_ Hi].
Qed.

(** The handlers of animals and zoos leave the users as they are. *)
Lemma habitat_Users (env : Env) (db : Db) (req : Request) :
  plaintext_of req = None ->
  (forall id, req <> DeleteUsers id) ->
  Users (serve env db req) = Users db.
Proof.
  intros Hplain Hdel.
  destruct req as [b rnd|a b rnd|b rnd|id|b|b|b|id b|id|f b|b|id b|id]; simpl in *.
  - unfold register, bcrypt_hash. by rewrite Hplain.
  - unfold change_password, protected.
    destruct (authMiddleware env db a); simpl; [done| |done].
    unfold change_password_handler, bcrypt_compare, bcrypt_hash. rewrite Hplain.
    destruct (cp_oldPassword b); simpl; [|done].
    by destruct (compareHash _ _).
  - unfold reset_password, bcrypt_hash. rewrite Hplain.
    rewrite model_collection_destructured; simpl.
    by destruct (findOne_username (Users db) (rp_username b)).
  - by destruct (Hdel id).
  - done.
  - unfold post_no_zoo, Animal_save_new.
    destruct (negb _ || negb _); [done|].
    destruct (required (body_name b)); [|done]; simpl.
    by destruct (required (body_species b)).
  - unfold post_animal, Animal_save_new.
    destruct (findById (Zoos db) (body_zoo b)); [|done].
    destruct (required (body_name b)); [|done]; simpl.
    by destruct (required (body_species b)).
  - unfold put_animal, Animal_findByIdAndUpdate.
    destruct (findById (Zoos db) (body_zoo b)); [|done].
    by destruct (Animals db !! id).
  - unfold delete_animal.
    destruct (findById (Animals db) (Some id)) as [animal|]; [|done].
    by destruct (findById (Zoos db) (Animal.zoo (fields animal))).
  - unfold post_zoo, Animal_find_in_body, array_length, Zoo_save_new.
    destruct (zbody_animals b) as [ids|]; simpl.
    + destruct (negb _); [done|].
      destruct (required (zbody_name b)); [|done]; simpl.
      by destruct (required (zbody_location b)).
    + by destruct (f db).
  - unfold createAnimal, Animal_save_new, Zoo_save.
    destruct (required (body_name b)); [|done]; simpl.
    destruct (required (body_species b)); [|done]; simpl.
    destruct (findById _ (body_zoo b)) as [zoo|]; [|done]; simpl.
    destruct (required (Some (Zoo.name (fields zoo)))); [|done]; simpl.
    by destruct (required (Some (Zoo.location (fields zoo)))).
  - unfold updateAnimal, Animal_findByIdAndUpdate.
    by destruct (Animals db !! id).
  - unfold deleteAnimal, Zoo_save.
    destruct (findById (Animals db) (Some id)) as [animal|]; [|done].
    destruct (findById (Zoos db) (Animal.zoo (fields animal))) as [zoo|]; [|done].
    simpl.
    destruct (required (Some (Zoo.name (fields zoo)))); [|done]; simpl.
    by destruct (required (Some (Zoo.location (fields zoo)))).
Qed.

(** C8. Whatever request is served, a user record found in the store
    afterwards is either the record stored under that identifier before,
    or its password field is the bcrypt hash, under a salt generated with
    cost 10, of the plaintext the request carried (the password of a
    registration, the new password of a change or reset). Hence, from
    the empty store on, every stored password is a hash output. *)
Theorem passwords_are_written_hashed :
  (forall (env : Env) (db : Db) (req : Request) (i : ObjectId) (u' : User.t),
     Users (serve env db req) !! i = Some u' ->
     Users db !! i = Some u'
     \/ exists plain, plaintext_of req = Some plain
                      /\ User.password u'
                         = hashSalt plain (genSalt 10 (entropy_of req)))
  /\ (forall trace : list (Env * Request), all_hashed (serve_all empty_db trace)).
Proof.
  assert (Hstep : forall env db req i u',
            Users (serve env db req) !! i = Some u' ->
            Users db !! i = Some u'
            \/ exists plain, plaintext_of req = Some plain
                 /\ User.password u' = hashSalt plain (genSalt 10 (entropy_of req))).
  { intros env db req i u'.
    destruct (plaintext_of req) as [plain|] eqn:Hplain.
    - destruct req; simpl in Hplain; try discriminate Hplain; simpl; intros Hi.
      + apply register_Users in Hi. by rewrite Hplain in Hi.
      + apply change_password_Users in Hi. by rewrite Hplain in Hi.
      + apply reset_password_Users in Hi. by rewrite Hplain in Hi.
    - assert (Hcases : (exists id, req = DeleteUsers id)
                       \/ forall id, req <> DeleteUsers id).
      { destruct req; first [by left; eexists | by right]. }
      destruct Hcases as [[id ->]|Hnd].
      + simpl. intros Hi. left. by eapply delete_user_Users.
      + rewrite (habitat_Users env db req Hplain Hnd). by left. }
  split; [exact Hstep|].
  assert (Hall : forall trace db, all_hashed db -> all_hashed (serve_all db trace)).
  { induction trace as [|[env req] trace IH]; intros db Hdb; [done|].
    simpl. apply IH. intros i u' Hi.
    destruct (Hstep env db req i u' Hi) as [Hold|[plain [_ Hnew]]].
    - by eapply Hdb.
    - by exists plain, (genSalt 10 (entropy_of req)). }
  intros trace. apply Hall. intros i u Hi.
  unfold empty_db in Hi; simpl in Hi. by rewrite lookup_empty in Hi.
Qed.

End IdentityProperties.

(** With the test doubles, registration of juan123 / pw1 on the empty
    store writes the hash of "pw1" under the generated salt, not "pw1". *)
Lemma passwords_are_written_hashed_witness :
  let env0 := mkEnv "secret" 1000 in
  let req := PostUsers (mkUserBody (Some "juan123") (Some "pw1")) 7 in
  let stored := User.mk "juan123" "$2a$10$3" in
  Users (@serve fake_bcrypt fake_jwt env0 empty_db req) !! 0 = Some stored
  /\ (Users empty_db !! 0 = Some stored
      \/ exists plain, plaintext_of req = Some plain
           /\ User.password stored
              = @hashSalt fake_bcrypt plain (@genSalt fake_bcrypt 10 (entropy_of req))).
Proof.
  intros env0 req stored. split; [reflexivity|].
  apply (proj1 (@passwords_are_written_hashed fake_bcrypt fake_jwt) env0 empty_db req 0).
  reflexivity.
Defined.

(** With the test doubles and [User] bound to the model: after the
    registration of juan123 / pw1 the login answers a token, and a request
    carrying it an hour's half later passes the middleware with the
    registered record as [req.user]. *)
Lemma register_login_authorize_with_model :
  let b := mkUserBody (Some "juan123") (Some "pw1") in
  let registered := @register fake_bcrypt fake_jwt (mkEnv "secret" 1000) empty_db b 7 in
  @login_with fake_bcrypt fake_jwt destructured_User (mkEnv "secret" 1200) registered.1 b
  = mkResponse 200 (TokenJson "secret.0")
  /\ @authMiddleware fake_jwt (mkEnv "secret" 3000) registered.1 (Some "Bearer secret.0")
     = Next (0, User.mk "juan123" "$2a$10$3")
  /\ @authMiddleware fake_jwt (mkEnv "other" 3000) registered.1 (Some "Bearer secret.0")
     = Respond (mkResponse 401 (MessageError "Token inválido" "invalid signature")).
Proof. vm_compute. repeat split; reflexivity. Qed.

(** * Further properties of the handlers *)

(** ** The Authorization header *)

Lemma replace_absent (pat repl s : string) :
  contains pat s = false -> replace pat repl s = s.
Proof.
  induction s as [|c s IH]; simpl.
  - by destruct (strip_prefix pat "").
  - destruct (strip_prefix pat (String c s)); [done|].
    intros Hs. by rewrite IH.
Qed.

Section Authorize.

Context {jwt : jsonwebtoken}.

(** The scheme prefix is optional: a header that holds the bare token is
    treated as the header [Bearer <token>]. *)
Theorem authMiddleware_scheme_optional (env : Env) (db : Db) (token : string) :
  contains "Bearer " token = false ->
  authMiddleware env db (Some token)
  = authMiddleware env db (Some ("Bearer " +:+ token)).
Proof.
  intros Habsent. unfold authMiddleware.
  rewrite (replace_absent _ _ _ Habsent).
  by change (replace "Bearer " "" ("Bearer " +:+ token)) with token.
Qed.

(** A user deleted after the token was issued is no longer authorized:
    the token still verifies, and the answer is 404. *)
Theorem authMiddleware_after_delete_user (env : Env) (db : Db) (header : string)
  (decoded : Jwt.payload) :
  replace "Bearer " "" header <> "" ->
  jwt_verify (replace "Bearer " "" header) (JWT_SECRET env) (now env) = Ok decoded ->
  authMiddleware env (delete_user db (Jwt.id decoded)).1 (Some header)
  = Respond (mkResponse 404 (Message "Usuario no encontrado")).
Proof.
  intros Htok Hv. apply (authMiddleware_unknown_user env _ header decoded Htok Hv).
  unfold delete_user. rewrite model_collection_destructured.
  destruct (findById (Users db) (Some (Jwt.id decoded))) eqn:Hf; simpl.
  - apply lookup_delete_eq.
  - by apply findById_None in Hf.
Qed.

End Authorize.

Lemma authMiddleware_scheme_optional_witness :
  @authMiddleware fake_jwt (mkEnv "secret" 3000) empty_db (Some "secret.0")
  = @authMiddleware fake_jwt (mkEnv "secret" 3000) empty_db (Some "Bearer secret.0").
Proof.
  apply (@authMiddleware_scheme_optional fake_jwt (mkEnv "secret" 3000) empty_db "secret.0").
  reflexivity.
Defined.

Lemma authMiddleware_after_delete_user_witness :
  let registered :=
    @register fake_bcrypt fake_jwt (mkEnv "secret" 1000) empty_db
      (mkUserBody (Some "juan123") (Some "pw1")) 7 in
  @authMiddleware fake_jwt (mkEnv "secret" 3000) registered.1 (Some "Bearer secret.0")
  = Next (0, User.mk "juan123" "$2a$10$3")
  /\ @authMiddleware fake_jwt (mkEnv "secret" 3000)
       (delete_user registered.1 0).1 (Some "Bearer secret.0")
     = Respond (mkResponse 404 (Message "Usuario no encontrado")).
Proof.
  intros registered. split; [reflexivity|].
  apply (@authMiddleware_after_delete_user fake_jwt (mkEnv "secret" 3000) registered.1
           "Bearer secret.0" (Jwt.mk 0 None)); [discriminate|reflexivity].
Defined.

Lemma authMiddleware_Next_witness :
  let registered :=
    @register fake_bcrypt fake_jwt (mkEnv "secret" 1000) empty_db
      (mkUserBody (Some "juan123") (Some "pw1")) 7 in
  exists header decoded,
    Some "Bearer secret.0" = Some header
    /\ @jwt_verify fake_jwt (replace "Bearer " "" header) "secret" 3000 = Ok decoded
    /\ 0 = Jwt.id decoded
    /\ Users registered.1 !! 0 = Some (User.mk "juan123" "$2a$10$3").
Proof.
  intros registered.
  apply (@authMiddleware_Next fake_jwt (mkEnv "secret" 3000) registered.1
           (Some "Bearer secret.0") (0, User.mk "juan123" "$2a$10$3")).
  reflexivity.
Defined.

Lemma authMiddleware_rejected_token_witness :
  exists r, @authMiddleware fake_jwt (mkEnv "other" 3000) empty_db (Some "Bearer secret.0")
            = Respond r /\ status r = 401.
Proof.
  apply (@authMiddleware_rejected_token fake_jwt (mkEnv "other" 3000) empty_db
           "Bearer secret.0" "invalid signature").
  reflexivity.
Defined.

(** ** Animals *)

Lemma truthy_Some (s : string) : s <> "" -> truthy (Some s) = true.
Proof. intros Hs. unfold truthy. by destruct (String.eqb_spec s ""). Qed.

Lemma createAnimal_links_zoo_witness :
  let served := createAnimal db_city_zoo leo_body in
  served.2 = mkResponse 201 (AnimalJson (1, leo))
  /\ Animals served.1 !! 1 = Some leo
  /\ exists zoo', Zoos served.1 !! 0 = Some zoo'
                  /\ occurrences 1 (Zoo.animals zoo') = 1%nat.
Proof.
  apply (createAnimal_links_zoo db_city_zoo "Leo" "lion" 0 city_zoo);
    [discriminate|discriminate|reflexivity|discriminate|discriminate|].
  intros Hin. inversion Hin.
Defined.

(** The controller saves the animal before it looks the zoo up: when the
    zoo does not resolve the answer is 404, and the animal stays in the
    store with a reference to a zoo that does not exist. *)
Theorem createAnimal_unknown_zoo_keeps_animal (db : Db) (name species : string)
  (z : ObjectId) :
  name <> "" -> species <> "" -> Zoos db !! z = None ->
  let served := createAnimal db (mkAnimalBody (Some name) (Some species) (Some z)) in
  served.2 = mkResponse 404 (Message "Zoológico no encontrado")
  /\ Animals served.1 !! nextId db = Some (Animal.mk name species (Some z))
  /\ Zoos served.1 = Zoos db
  /\ ~ forward_linked served.1.
Proof.
  intros Hn Hs Hnone. unfold createAnimal, Animal_save_new; simpl.
  rewrite (required_Some _ Hn), (required_Some _ Hs); simpl.
  rewrite Hnone; simpl.
  split; [done|]. split; [by rewrite lookup_insert_eq|]. split; [done|].
  intros Hlinked.
  destruct (Hlinked (nextId db) z (Animal.mk name species (Some z)))
    as [zoo [Hzoo _]]; simpl in *; [by rewrite lookup_insert_eq|done|congruence].
Qed.

Lemma createAnimal_unknown_zoo_keeps_animal_witness :
  let served := createAnimal empty_db leo_body in
  served.2 = mkResponse 404 (Message "Zoológico no encontrado")
  /\ Animals served.1 !! 0 = Some leo
  /\ Zoos served.1 = Zoos empty_db
  /\ ~ forward_linked served.1.
Proof.
  apply (createAnimal_unknown_zoo_keeps_animal empty_db "Leo" "lion" 0);
    [discriminate|discriminate|reflexivity].
Defined.

(** The mounted handler resolves the zoo before it writes: whenever its
    answer is not 201 the store is as before. *)
Theorem post_animal_rejects_without_writing (db : Db) (b : AnimalBody) :
  status (post_animal db b).2 <> 201 -> (post_animal db b).1 = db.
Proof.
  unfold post_animal, Animal_save_new.
  destruct (findById (Zoos db) (body_zoo b)); [|done].
  destruct (required (body_name b)); [|done]; simpl.
  destruct (required (body_species b)); [|done]; simpl.
  by intros [].
Qed.

Lemma post_animal_rejects_without_writing_witness :
  (post_animal db_city_zoo (mkAnimalBody (Some "Leo") None (Some 0))).1 = db_city_zoo.
Proof.
  apply (post_animal_rejects_without_writing db_city_zoo
           (mkAnimalBody (Some "Leo") None (Some 0))).
  vm_compute. discriminate.
Defined.

Lemma deleteAnimal_unlinks_zoo_witness :
  let served := deleteAnimal db_leo_housed 1 in
  served.2 = mkResponse 200 (Message "Animal eliminado")
  /\ Animals served.1 !! 1 = None
  /\ exists zoo', Zoos served.1 !! 0 = Some zoo'
                  /\ occurrences 1 (Zoo.animals zoo') = 0%nat.
Proof.
  apply (deleteAnimal_unlinks_zoo db_leo_housed 1 0 leo
           (Zoo.mk "City Zoo" "Springfield" [1]));
    [reflexivity|reflexivity|reflexivity|discriminate|discriminate].
Defined.

Lemma deleteAnimal_tolerates_missing_zoo_witness :
  let served := deleteAnimal db_leo_orphaned 1 in
  served.2 = mkResponse 200 (Message "Animal eliminado")
  /\ Animals served.1 !! 1 = None.
Proof.
  apply (deleteAnimal_tolerates_missing_zoo db_leo_orphaned 1 0 leo); reflexivity.
Defined.

(** An animal created through /no-zoo has no zoo reference, and the
    mounted DELETE answers 404 for it and keeps it; the controller
    deletes it. *)
Theorem post_no_zoo_animal_cannot_be_deleted (db : Db) (name species : string)
  (zoo : option ObjectId) :
  name <> "" -> species <> "" ->
  let created := post_no_zoo db (mkAnimalBody (Some name) (Some species) zoo) in
  created.2 = mkResponse 201 (AnimalJson (nextId db, Animal.mk name species None))
  /\ delete_animal created.1 (nextId db)
     = (created.1, mkResponse 404 (Message "Zoológico no encontrado"))
  /\ (deleteAnimal created.1 (nextId db)).2 = mkResponse 200 (Message "Animal eliminado")
  /\ Animals (deleteAnimal created.1 (nextId db)).1 !! nextId db = None.
Proof.
  intros Hn Hs. unfold post_no_zoo, Animal_save_new.
  cbn [body_name body_species body_zoo].
  rewrite (truthy_Some _ Hn), (truthy_Some _ Hs); simpl.
  rewrite (required_Some _ Hn), (required_Some _ Hs); simpl.
  split; [done|].
  unfold delete_animal, deleteAnimal, findById; simpl.
  rewrite lookup_insert_eq; simpl.
  split; [done|]. split; [done|]. by rewrite lookup_delete_eq.
Qed.

Lemma post_no_zoo_animal_cannot_be_deleted_witness :
  let created := post_no_zoo db_city_zoo leo_body in
  created.2 = mkResponse 201 (AnimalJson (1, Animal.mk "Leo" "lion" None))
  /\ delete_animal created.1 1
     = (created.1, mkResponse 404 (Message "Zoológico no encontrado"))
  /\ (deleteAnimal created.1 1).2 = mkResponse 200 (Message "Animal eliminado")
  /\ Animals (deleteAnimal created.1 1).1 !! 1 = None.
Proof.
  apply (post_no_zoo_animal_cannot_be_deleted db_city_zoo "Leo" "lion" (Some 0));
    discriminate.
Defined.

(** The mounted PUT succeeds only with a zoo that resolves and an animal
    that resolves; it then replaces that animal, with the zoo as its
    reference, and writes nothing else. A body without [zoo] is
    therefore always answered 404. *)
Theorem put_animal_200 (db : Db) (id : ObjectId) (b : AnimalBody) :
  status (put_animal db id b).2 = 200 ->
  exists z zoo a,
    body_zoo b = Some z /\ Zoos db !! z = Some zoo /\ Animals db !! id = Some a
    /\ (put_animal db id b).1
       = set_Animals db
           (<[id := Animal.mk (default (Animal.name a) (body_name b))
                              (default (Animal.species a) (body_species b))
                              (Some z)]> (Animals db)).
Proof.
  unfold put_animal, Animal_findByIdAndUpdate, findById.
  destruct (body_zoo b) as [z|]; [|done].
  destruct (Zoos db !! z) as [zoo|] eqn:Hzoo; simpl; [|done].
  destruct (Animals db !! id) as [a|] eqn:Ha; simpl; [|done].
  intros _. by exists z, zoo, a.
Qed.

Lemma put_animal_200_witness :
  exists z zoo a,
    Some 2 = Some z /\ Zoos db_two_zoos !! z = Some zoo
    /\ Animals db_two_zoos !! 1 = Some a
    /\ (put_animal db_two_zoos 1 (mkAnimalBody None (Some "lioness") (Some 2))).1
       = set_Animals db_two_zoos
           (<[1 := Animal.mk (default (Animal.name a) None)
                             (default (Animal.species a) (Some "lioness"))
                             (Some z)]> (Animals db_two_zoos)).
Proof.
  apply (put_animal_200 db_two_zoos 1 (mkAnimalBody None (Some "lioness") (Some 2))).
  reflexivity.
Defined.

(** The controller's update does not resolve the zoo: a reference to a
    zoo that does not exist is stored as it is. *)
Theorem updateAnimal_accepts_unknown_zoo (db : Db) (id z : ObjectId) (a : Animal.t)
  (name species : string) :
  Animals db !! id = Some a -> Zoos db !! z = None ->
  let moved := Animal.mk name species (Some z) in
  let served :=
    updateAnimal db id (mkAnimalBody (Some name) (Some species) (Some z)) in
  served.2 = mkResponse 200 (AnimalJson (id, moved))
  /\ Animals served.1 !! id = Some moved
  /\ ~ forward_linked served.1.
Proof.
  intros Ha Hnone. unfold updateAnimal, Animal_findByIdAndUpdate; simpl.
  rewrite Ha; simpl. split; [done|]. split; [by rewrite lookup_insert_eq|].
  intros Hlinked.
  destruct (Hlinked id z (Animal.mk name species (Some z)))
    as [zoo [Hzoo _]]; simpl in *; [by rewrite lookup_insert_eq|done|congruence].
Qed.

Lemma updateAnimal_accepts_unknown_zoo_witness :
  let moved := Animal.mk "Leo" "lion" (Some 9) in
  let served :=
    updateAnimal db_leo_housed 1 (mkAnimalBody (Some "Leo") (Some "lion") (Some 9)) in
  served.2 = mkResponse 200 (AnimalJson (1, moved))
  /\ Animals served.1 !! 1 = Some moved
  /\ ~ forward_linked served.1.
Proof.
  apply (updateAnimal_accepts_unknown_zoo db_leo_housed 1 9 leo "Leo" "lion");
    reflexivity.
Defined.

(** A 200 of GET /api/animals/zoo/:zooId lists each animal whose zoo
    reference is [zooId] once, and no other animal. *)
Theorem get_animals_by_zoo_200 (db : Db) (zooId : ObjectId)
  (l : list PopulatedAnimal) :
  get_animals_by_zoo db zooId = mkResponse 200 (AnimalsJson l) ->
  NoDup (pa_id <$> l)
  /\ forall i, i ∈ pa_id <$> l
               <-> exists a, Animals db !! i = Some a /\ Animal.zoo a = Some zooId.
Proof.
  unfold get_animals_by_zoo.
  destruct (N.of_nat _ =? 0); [done|]. intros [= <-].
  rewrite <- list_fmap_compose.
  change (pa_id ∘ populate_zoo db) with (@fst ObjectId Animal.t).
  unfold Animal_find_by_zoo, docs. split.
  - eapply sublist_NoDup; [apply (NoDup_fst_map_to_list (Animals db))|].
    apply fmap_sublist, sublist_filter.
  - intros i. rewrite list_elem_of_fmap. split.
    + intros [[j a] [-> Hd]]. apply list_elem_of_filter in Hd as [Hzoo Hd].
      apply elem_of_map_to_list in Hd. by exists a.
    + intros [a [Ha Hzoo]]. exists (i, a). split; [done|].
      apply list_elem_of_filter. split; [done|]. by apply elem_of_map_to_list.
Qed.

Lemma get_animals_by_zoo_200_witness :
  let l := [mkPopulatedAnimal 1 "Leo" "lion"
              (Some (mkZooProjection 0 "City Zoo" "Springfield"))] in
  NoDup (pa_id <$> l)
  /\ forall i, i ∈ pa_id <$> l
               <-> exists a, Animals db_leo_housed !! i = Some a
                             /\ Animal.zoo a = Some 0.
Proof.
  intros l. apply (get_animals_by_zoo_200 db_leo_housed 0 l). reflexivity.
Defined.

(** ** Zoos *)

Lemma elem_of_populate_animals (db : Db) (z : Doc Zoo.t) (d : Doc Animal.t) :
  d ∈ pz_animals (populate_animals db z)
  <-> _id d ∈ Zoo.animals (fields z) /\ Animals db !! _id d = Some (fields d).
Proof.
  unfold populate_animals; simpl. rewrite list_elem_of_omap. split.
  - intros [i [Hi Hf]]. apply findById_Some in Hf as [<- Hf]. by split.
  - intros [Hi Hd]. exists (_id d). split; [done|]. by apply findById_Some.
Qed.

(** GET /api/zoos/:id expands the collection of a stored zoo into the
    stored animals its identifiers resolve to; an identifier that
    resolves to nothing does not show in the answer. *)
Theorem get_zoo_200 (db : Db) (z : ObjectId) (zoo : Zoo.t) :
  Zoos db !! z = Some zoo ->
  exists l,
    get_zoo db z
    = mkReadResponse 200
        (PopulatedZooJson (mkPopulatedZoo z (Zoo.name zoo) (Zoo.location zoo) l))
    /\ forall d : Doc Animal.t,
         d ∈ l <-> _id d ∈ Zoo.animals zoo /\ Animals db !! _id d = Some (fields d).
Proof.
  intros Hz. unfold get_zoo, findById. rewrite Hz; simpl.
  eexists. split; [reflexivity|].
  intros d. apply (elem_of_populate_animals db (z, zoo) d).
Qed.

Lemma get_zoo_200_witness :
  exists l,
    get_zoo db_leo_housed 0
    = mkReadResponse 200
        (PopulatedZooJson (mkPopulatedZoo 0 "City Zoo" "Springfield" l))
    /\ forall d : Doc Animal.t,
         d ∈ l <-> _id d ∈ [1] /\ Animals db_leo_housed !! _id d = Some (fields d).
Proof.
  apply (get_zoo_200 db_leo_housed 0 (Zoo.mk "City Zoo" "Springfield" [1])).
  reflexivity.
Defined.

(** After the mounted DELETE of an animal every stored zoo is as before,
    so the controller's read of a zoo still shows the identifier where
    it was listed, while the expanded read of the zoo routes no longer
    shows the animal. *)
Theorem delete_animal_then_read_zoo (db : Db) (id z : ObjectId) (zoo : Zoo.t) :
  status (delete_animal db id).2 = 200 ->
  Zoos db !! z = Some zoo ->
  let db' := (delete_animal db id).1 in
  getZoo db' z = mkReadResponse 200 (ZooDocJson (z, zoo))
  /\ exists l,
       get_zoo db' z
       = mkReadResponse 200
           (PopulatedZooJson (mkPopulatedZoo z (Zoo.name zoo) (Zoo.location zoo) l))
       /\ forall d : Doc Animal.t, d ∈ l -> _id d <> id.
Proof.
  intros Hok Hz. simpl.
  assert (Hz' : Zoos (delete_animal db id).1 !! z = Some zoo)
    by by rewrite delete_animal_Zoos.
  assert (Hgone : Animals (delete_animal db id).1 !! id = None).
  { revert Hok. unfold delete_animal.
    destruct (findById (Animals db) (Some id)) as [animal|]; [|done].
    destruct (findById (Zoos db) (Animal.zoo (fields animal))); [|done].
    intros _. apply lookup_delete_eq. }
  split.
  - unfold getZoo, findById. by rewrite Hz'.
  - unfold get_zoo, findById. rewrite Hz'; simpl.
    eexists. split; [reflexivity|].
    intros d Hd <-.
    apply (elem_of_populate_animals _ (z, zoo) d) in Hd as [_ Hd]. congruence.
Qed.

Lemma delete_animal_then_read_zoo_witness :
  let db' := (delete_animal db_leo_housed 1).1 in
  getZoo db' 0 = mkReadResponse 200 (ZooDocJson (0, Zoo.mk "City Zoo" "Springfield" [1]))
  /\ exists l,
       get_zoo db' 0
       = mkReadResponse 200
           (PopulatedZooJson (mkPopulatedZoo 0 "City Zoo" "Springfield" l))
       /\ forall d : Doc Animal.t, d ∈ l -> _id d <> 1.
Proof.
  apply (delete_animal_then_read_zoo db_leo_housed 1 0
           (Zoo.mk "City Zoo" "Springfield" [1])); reflexivity.
Defined.

(** DELETE /api/zoos/:id deletes the zoo and nothing else. An animal
    that referred to the zoo keeps its reference: it is read with a null
    zoo, and the mounted DELETE of the animal answers 404 and keeps it. *)
Theorem delete_zoo_orphans_animals (db : Db) (z : ObjectId) (zoo : Zoo.t) :
  Zoos db !! z = Some zoo ->
  let served := delete_zoo db z in
  served.2 = mkResponse 200 (Message "Zoológico eliminado exitosamente")
  /\ Animals served.1 = Animals db
  /\ Zoos served.1 !! z = None
  /\ forall (i : ObjectId) (a : Animal.t),
       Animals db !! i = Some a -> Animal.zoo a = Some z ->
       get_animal served.1 i
       = mkReadResponse 200
           (PopulatedAnimalJson
              (mkPopulatedAnimal i (Animal.name a) (Animal.species a) None))
       /\ delete_animal served.1 i
          = (served.1, mkResponse 404 (Message "Zoológico no encontrado")).
Proof.
  intros Hz. unfold delete_zoo, findById. rewrite Hz; simpl.
  split; [done|]. split; [done|]. split; [apply lookup_delete_eq|].
  intros i a Ha Hzoo. split.
  - unfold get_animal, findById, populate_zoo; simpl. rewrite Ha; simpl.
    by rewrite Hzoo; simpl; rewrite lookup_delete_eq.
  - unfold delete_animal, findById; simpl. rewrite Ha; simpl.
    by rewrite Hzoo; simpl; rewrite lookup_delete_eq.
Qed.

Lemma delete_zoo_orphans_animals_witness :
  let served := delete_zoo db_leo_housed 0 in
  get_animal served.1 1
  = mkReadResponse 200 (PopulatedAnimalJson (mkPopulatedAnimal 1 "Leo" "lion" None))
  /\ delete_animal served.1 1
     = (served.1, mkResponse 404 (Message "Zoológico no encontrado")).
Proof.
  destruct (delete_zoo_orphans_animals db_leo_housed 0
              (Zoo.mk "City Zoo" "Springfield" [1]) eq_refl) as [_ [_ [_ Horphan]]].
  apply (Horphan 1 leo); reflexivity.
Defined.

(** DELETE /api/zoos/:id on an identifier that does not resolve answers
    404 and leaves the store as it is. *)
Lemma delete_zoo_unknown (db : Db) (z : ObjectId) :
  Zoos db !! z = None ->
  delete_zoo db z = (db, mkResponse 404 (Message "Zoológico no encontrado")).
Proof.
  intros Hz. unfold delete_zoo. by rewrite (proj2 (findById_None _ _) Hz).
Qed.

Section MoreCreateZoo.

Variable find_in_undefined : Db -> result (list (Doc Animal.t)).

(** PUT /api/zoos/:id does not check its list of animals: a list that
    POST /api/zoos rejects, because an identifier does not resolve, is
    stored as the collection of an existing zoo, which then lists an
    animal that does not exist. *)
Theorem put_zoo_stores_unresolved (db : Db) (id i : ObjectId) (zoo : Zoo.t)
  (name location : string) (ids : list ObjectId) :
  Zoos db !! id = Some zoo -> i ∈ ids -> Animals db !! i = None ->
  let b := mkZooBody (Some name) (Some location) (Some ids) in
  let updated := Zoo.mk name location ids in
  let served := put_zoo db id b in
  served.2 = mkResponse 200 (ZooJson (id, updated))
  /\ Zoos served.1 !! id = Some updated
  /\ Animals served.1 = Animals db
  /\ ~ reverse_linked served.1
  /\ post_zoo find_in_undefined db b
     = (db, mkResponse 400 (Message "Uno o más animales no existen en la base de datos")).
Proof.
  intros Hz Hi Hnone. unfold put_zoo, Zoo_findByIdAndUpdate. rewrite Hz; simpl.
  split; [done|]. split; [by rewrite lookup_insert_eq|]. split; [done|]. split.
  - intros Hlinked.
    destruct (Hlinked id i (Zoo.mk name location ids))
      as [a [Ha _]]; simpl in *; [by rewrite lookup_insert_eq|done|congruence].
  - apply post_zoo_count_mismatch. intros Hlen.
    apply count_check in Hlen as [_ Hall].
    destruct (Hall i Hi) as [a Ha]. congruence.
Qed.

(** POST /api/zoos rejects a list that names an animal twice, also when
    every identifier resolves. *)
Theorem post_zoo_duplicate_rejected (db : Db) (name location : option string)
  (ids : list ObjectId) :
  ~ NoDup ids ->
  post_zoo find_in_undefined db (mkZooBody name location (Some ids))
  = (db, mkResponse 400 (Message "Uno o más animales no existen en la base de datos")).
Proof.
  intros Hdup. apply post_zoo_count_mismatch. intros Hlen.
  by apply count_check in Hlen as [Hnd _].
Qed.

(** POST /api/zoos writes at most one document, the new zoo: animals,
    users and the zoos already stored are as before. In particular the
    animals it lists do not get the new zoo as their reference. *)
Theorem post_zoo_writes_one_zoo (db : Db) (b : ZooBody) :
  let served := post_zoo find_in_undefined db b in
  Animals served.1 = Animals db
  /\ Users served.1 = Users db
  /\ forall z, z <> nextId db -> Zoos served.1 !! z = Zoos db !! z.
Proof.
  unfold post_zoo, Animal_find_in_body, array_length, Zoo_save_new.
  destruct (zbody_animals b) as [ids|]; simpl.
  - destruct (negb _); [done|].
    destruct (required (zbody_name b)); [|done]; simpl.
    destruct (required (zbody_location b)); [|done]; simpl.
    split; [done|]. split; [done|]. intros z Hz. by rewrite lookup_insert_ne.
  - by destruct (find_in_undefined db).
Qed.

End MoreCreateZoo.

Lemma put_zoo_stores_unresolved_witness :
  let b := mkZooBody (Some "City Zoo") (Some "Springfield") (Some [1; 9]) in
  let updated := Zoo.mk "City Zoo" "Springfield" [1; 9] in
  let served := put_zoo db_leo_housed 0 b in
  served.2 = mkResponse 200 (ZooJson (0, updated))
  /\ Zoos served.1 !! 0 = Some updated
  /\ Animals served.1 = Animals db_leo_housed
  /\ ~ reverse_linked served.1
  /\ post_zoo (fun _ => Ok []) db_leo_housed b
     = (db_leo_housed,
        mkResponse 400 (Message "Uno o más animales no existen en la base de datos")).
Proof.
  apply (put_zoo_stores_unresolved (fun _ => Ok []) db_leo_housed 0 9
           (Zoo.mk "City Zoo" "Springfield" [1]) "City Zoo" "Springfield" [1; 9]);
    [reflexivity|repeat constructor|reflexivity].
Defined.

Lemma post_zoo_duplicate_rejected_witness :
  is_Some (Animals db_leo_housed !! 1)
  /\ post_zoo (fun _ => Ok []) db_leo_housed
       (mkZooBody (Some "Safari Park") (Some "Shelbyville") (Some [1; 1]))
     = (db_leo_housed,
        mkResponse 400 (Message "Uno o más animales no existen en la base de datos")).
Proof.
  split; [by eexists|].
  apply (post_zoo_duplicate_rejected (fun _ => Ok []) db_leo_housed).
  intros Hnd. apply NoDup_cons in Hnd as [Hnotin _]. apply Hnotin. left.
Defined.

Lemma post_zoo_empty_list_witness :
  post_zoo (fun _ => Ok []) db_leo_housed
    (mkZooBody (Some "Safari Park") (Some "Shelbyville") (Some []))
  = (bump (set_Zoos db_leo_housed
             (<[2 := Zoo.mk "Safari Park" "Shelbyville" []]> (Zoos db_leo_housed))),
     mkResponse 201 (ZooJson (2, Zoo.mk "Safari Park" "Shelbyville" []))).
Proof.
  apply (post_zoo_empty_list (fun _ => Ok []) db_leo_housed "Safari Park" "Shelbyville");
    discriminate.
Defined.

(** ** Users *)

Section MoreIdentity.

Context {bcrypt : bcryptjs} {jwt : jsonwebtoken}.


(** A username that a stored user has cannot be registered again: the
    answer is 400 and the store is as before, whatever the password. *)
Theorem register_duplicate_username (env : Env) (db : Db) (i : ObjectId)
  (usr : User.t) (password : option string) (rnd : Entropy) :
  Users db !! i = Some usr ->
  let served :=
    register env db (mkUserBody (Some (User.username usr)) password) rnd in
  status served.2 = 400 /\ served.1 = db.
Proof.
  intros Hi. unfold register, bcrypt_hash, User_save_new; simpl.
  destruct password; simpl; [|done].
  destruct (required (Some (User.username usr))) as [u|] eqn:Hu; simpl; [|done].
  apply required_Ok in Hu as [[= <-] _].
  destruct (required (Some _)); simpl; [|done].
  destruct (findOne_username (Users db) (Some (User.username usr))) eqn:Hf;
    simpl; [done|].
  rewrite findOne_username_None in Hf. by destruct (Hf i usr Hi).
Qed.

(** The password of a user changes through /change-password only when
    the middleware has passed the request and the old password of the
    body matches the stored hash of [req.user]. *)
Theorem change_password_writes_only_when_authorized (env : Env) (db : Db)
  (authorization : option string) (b : ChangePasswordBody) (rnd : Entropy) :
  (change_password env db authorization b rnd).1 <> db ->
  exists user old,
    authMiddleware env db authorization = Next user
    /\ cp_oldPassword b = Some old
    /\ compareHash old (User.password (fields user)) = true.
Proof.
  unfold change_password, protected.
  destruct (authMiddleware env db authorization) as [r|user|e]; simpl; [done| |done].
  unfold change_password_handler, bcrypt_compare.
  destruct (cp_oldPassword b) as [old|]; simpl; [|done].
  destruct (compareHash old (User.password (fields user))) eqn:Hcmp; simpl; [|done].
  intros _. by exists user, old.
Qed.

(** With the old password matching, the stored hash of the authorized
    user is replaced by the hash of the new password; the username and
    every other user are as before. *)
Theorem change_password_200 (env : Env) (db : Db) (authorization : option string)
  (user : Doc User.t) (old new : string) (rnd : Entropy) :
  authMiddleware env db authorization = Next user ->
  compareHash old (User.password (fields user)) = true ->
  User.username (fields user) <> "" -> hashSalt new (genSalt 10 rnd) <> "" ->
  let changed := User.mk (User.username (fields user)) (hashSalt new (genSalt 10 rnd)) in
  change_password env db authorization (mkChangePasswordBody (Some old) (Some new)) rnd
  = (set_Users db (<[_id user := changed]> (Users db)),
     Sent (mkResponse 200 (Message "Contraseña cambiada exitosamente"))).
Proof.
  intros Hauth Hcmp Hu Hh. unfold change_password, protected. rewrite Hauth.
  unfold change_password_handler, bcrypt_compare, bcrypt_hash, User_save; simpl.
  rewrite Hcmp; simpl.
  by rewrite (required_Some _ Hu), (required_Some _ Hh).
Qed.

(** /reset-password asks for no token and no old password: for a stored
    username the hash is replaced by the hash of the new password of the
    body; for a username that is not stored the answer is 404 and the
    store is as before. *)
Theorem reset_password_needs_no_token (db : Db) (u new : string) (rnd : Entropy) :
  (forall user : Doc User.t,
     findOne_username (Users db) (Some u) = Some user ->
     hashSalt new (genSalt 10 rnd) <> "" -> u <> "" ->
     reset_password db (mkResetPasswordBody (Some u) (Some new)) rnd
     = (set_Users db
          (<[_id user := User.mk u (hashSalt new (genSalt 10 rnd))]> (Users db)),
        mkResponse 200 (Message "Contraseña restablecida exitosamente")))
  /\ (findOne_username (Users db) (Some u) = None ->
      reset_password db (mkResetPasswordBody (Some u) (Some new)) rnd
      = (db, mkResponse 404 (Message "Usuario no encontrado"))).
Proof.
  split.
  - intros user Hf Hh Hu. unfold reset_password, bcrypt_hash, User_save.
    rewrite model_collection_destructured; simpl. rewrite Hf; simpl.
    destruct (findOne_username_Some _ _ _ Hf) as [_ [= Huser]].
    rewrite <- Huser. by rewrite (required_Some _ Hu), (required_Some _ Hh).
  - intros Hf. unfold reset_password.
    rewrite model_collection_destructured; simpl. by rewrite Hf.
Qed.

End MoreIdentity.


(** The store after juan123 / pw1 has registered, with the test doubles. *)
Lemma register_duplicate_username_witness :
  let db := mkDb ∅ ∅ {[0 := User.mk "juan123" "$2a$10$3"]} 1 in
  let served :=
    @register fake_bcrypt fake_jwt (mkEnv "secret" 1000) db
      (mkUserBody (Some "juan123") (Some "other")) 7 in
  status served.2 = 400 /\ served.1 = db.
Proof.
  intros db.
  apply (@register_duplicate_username fake_bcrypt fake_jwt (mkEnv "secret" 1000) db 0
           (User.mk "juan123" "$2a$10$3") (Some "other") 7).
  reflexivity.
Defined.

Lemma change_password_writes_only_when_authorized_witness :
  let db := mkDb ∅ ∅ {[0 := User.mk "juan123" "$2a$10$3"]} 1 in
  exists user old,
    @authMiddleware fake_jwt (mkEnv "secret" 3000) db (Some "Bearer secret.0") = Next user
    /\ Some "pw1" = Some old
    /\ @compareHash fake_bcrypt old (User.password (fields user)) = true.
Proof.
  intros db.
  apply (@change_password_writes_only_when_authorized fake_bcrypt fake_jwt
           (mkEnv "secret" 3000) db (Some "Bearer secret.0")
           (mkChangePasswordBody (Some "pw1") (Some "longer")) 7).
  intros Heq. apply (f_equal (fun d => Users d !! 0)) in Heq.
  vm_compute in Heq. discriminate Heq.
Defined.

Lemma change_password_200_witness :
  let db := mkDb ∅ ∅ {[0 := User.mk "juan123" "$2a$10$3"]} 1 in
  @change_password fake_bcrypt fake_jwt (mkEnv "secret" 3000) db (Some "Bearer secret.0")
    (mkChangePasswordBody (Some "pw1") (Some "longer")) 7
  = (set_Users db (<[0 := User.mk "juan123" "$2a$10$6"]> (Users db)),
     Sent (mkResponse 200 (Message "Contraseña cambiada exitosamente"))).
Proof.
  intros db.
  apply (@change_password_200 fake_bcrypt fake_jwt (mkEnv "secret" 3000) db
           (Some "Bearer secret.0") (0, User.mk "juan123" "$2a$10$3") "pw1" "longer" 7);
    [reflexivity|reflexivity|discriminate|discriminate].
Defined.

Lemma reset_password_needs_no_token_witness :
  let db := mkDb ∅ ∅ {[0 := User.mk "juan123" "$2a$10$3"]} 1 in
  @reset_password fake_bcrypt db (mkResetPasswordBody (Some "juan123") (Some "longer")) 7
  = (set_Users db (<[0 := User.mk "juan123" "$2a$10$6"]> (Users db)),
     mkResponse 200 (Message "Contraseña restablecida exitosamente"))
  /\ @reset_password fake_bcrypt db (mkResetPasswordBody (Some "ghost") (Some "longer")) 7
     = (db, mkResponse 404 (Message "Usuario no encontrado")).
Proof.
  intros db. split.
  - apply (proj1 (@reset_password_needs_no_token fake_bcrypt db "juan123" "longer" 7)
             (0, User.mk "juan123" "$2a$10$3"));
      [reflexivity|discriminate|discriminate].
  - apply (proj2 (@reset_password_needs_no_token fake_bcrypt db "ghost" "longer" 7)).
    reflexivity.
Defined.

Lemma login_with_indistinguishable_witness :
  let db := mkDb ∅ ∅ {[0 := User.mk "juan123" "$2a$10$3"]} 1 in
  @login_with fake_bcrypt fake_jwt destructured_User (mkEnv "secret" 1200) db
    (mkUserBody (Some "ghost") (Some "pw1"))
  = @login_with fake_bcrypt fake_jwt destructured_User (mkEnv "secret" 1200) db
      (mkUserBody (Some "juan123") (Some "wrongpw")).
Proof.
  intros db.
  apply (@login_with_indistinguishable fake_bcrypt fake_jwt destructured_User
           (mkEnv "secret" 1200) db "ghost" "pw1" "juan123" "wrongpw"
           (0, User.mk "juan123" "$2a$10$3"));
    [discriminate|discriminate|discriminate|discriminate
    |reflexivity|reflexivity|reflexivity].
Defined.


(** ** Stores reached by serving requests *)

Lemma sound_empty : sound empty_db.
Proof.
  unfold sound, empty_db; simpl. repeat split; intros *; rewrite ?lookup_empty; done.
Qed.

Lemma sound_new_animal (db : Db) (a : Animal.t) :
  sound db -> sound (bump (set_Animals db (<[nextId db := a]> (Animals db)))).
Proof.
  intros (Ha & Hz & Hu & Huniq). unfold sound; simpl. split; [|split; [|split]].
  - intros i a' Hi. rewrite lookup_insert in Hi. case_decide; [lia|].
    apply Ha in Hi. lia.
  - intros i z Hi. destruct (Hz i z Hi) as (Hlt & Hn & Hl & Hids).
    split; [lia|]. split; [done|]. split; [done|].
    intros j Hj. apply Hids in Hj. lia.
  - intros i u Hi. apply Hu in Hi. lia.
  - exact Huniq.
Qed.

Lemma sound_set_animal (db : Db) (i : ObjectId) (a : Animal.t) :
  sound db -> is_Some (Animals db !! i) ->
  sound (set_Animals db (<[i := a]> (Animals db))).
Proof.
  intros (Ha & Hz & Hu & Huniq) [old Hold]. unfold sound; simpl.
  split; [|done].
  intros j a' Hj. rewrite lookup_insert in Hj. case_decide; [|by eapply Ha].
  subst j. by eapply Ha.
Qed.

Lemma sound_delete_animal (db : Db) (i : ObjectId) :
  sound db -> sound (set_Animals db (delete i (Animals db))).
Proof.
  intros (Ha & Hz & Hu & Huniq). unfold sound; simpl. split; [|done].
  intros j a Hj. apply lookup_delete_Some in Hj as [_ Hj]. by eapply Ha.
Qed.

Lemma sound_new_zoo (db : Db) (z : Zoo.t) :
  sound db -> Zoo.name z <> "" -> Zoo.location z <> "" ->
  (forall j, j ∈ Zoo.animals z -> j < nextId db) ->
  sound (bump (set_Zoos db (<[nextId db := z]> (Zoos db)))).
Proof.
  intros (Ha & Hz & Hu & Huniq) Hn Hl Hids. unfold sound; simpl.
  split; [|split; [|split]].
  - intros i a Hi. apply Ha in Hi. lia.
  - intros i z' Hi. rewrite lookup_insert in Hi. case_decide.
    + injection Hi as <-. split; [lia|]. split; [done|]. split; [done|].
      intros j Hj. apply Hids in Hj. lia.
    + destruct (Hz i z' Hi) as (Hlt & Hn' & Hl' & Hids').
      split; [lia|]. split; [done|]. split; [done|].
      intros j Hj. apply Hids' in Hj. lia.
  - intros i u Hi. apply Hu in Hi. lia.
  - exact Huniq.
Qed.

Lemma sound_set_zoo (db : Db) (i : ObjectId) (z : Zoo.t) :
  sound db -> i < nextId db -> Zoo.name z <> "" -> Zoo.location z <> "" ->
  (forall j, j ∈ Zoo.animals z -> j < nextId db) ->
  sound (set_Zoos db (<[i := z]> (Zoos db))).
Proof.
  intros (Ha & Hz & Hu & Huniq) Hlt Hn Hl Hids. unfold sound; simpl.
  split; [done|]. split; [|done].
  intros j z' Hj. rewrite lookup_insert in Hj. case_decide; [|by apply Hz].
  injection Hj as <-. by subst j.
Qed.

Lemma sound_new_user (db : Db) (u : User.t) :
  sound db ->
  (forall i v, Users db !! i = Some v -> User.username v <> User.username u) ->
  sound (bump (set_Users db (<[nextId db := u]> (Users db)))).
Proof.
  intros (Ha & Hz & Hu & Huniq) Hfree. unfold sound; simpl.
  split; [|split; [|split]].
  - intros i a Hi. apply Ha in Hi. lia.
  - intros i z Hi. destruct (Hz i z Hi) as (Hlt & Hn & Hl & Hids).
    split; [lia|]. split; [done|]. split; [done|].
    intros j Hj. apply Hids in Hj. lia.
  - intros i v Hi. rewrite lookup_insert in Hi. case_decide; [lia|].
    apply Hu in Hi. lia.
  - intros i j v w Hi Hj Heq. rewrite lookup_insert in Hi, Hj.
    destruct (decide (nextId db = i)) as [<-|Hni];
      destruct (decide (nextId db = j)) as [<-|Hnj]; [done| | |by eapply Huniq].
    + injection Hi as <-. by destruct (Hfree _ _ Hj).
    + injection Hj as <-. by destruct (Hfree _ _ Hi).
Qed.

Lemma sound_set_user (db : Db) (i : ObjectId) (u old : User.t) :
  sound db -> Users db !! i = Some old -> User.username u = User.username old ->
  sound (set_Users db (<[i := u]> (Users db))).
Proof.
  intros (Ha & Hz & Hu & Huniq) Hold Heq. unfold sound; simpl.
  split; [done|]. split; [done|]. split.
  - intros j v Hj. rewrite lookup_insert in Hj. case_decide; [|by eapply Hu].
    subst j. by eapply Hu.
  - intros j k v w Hj Hk Hvw. rewrite lookup_insert in Hj, Hk.
    destruct (decide (i = j)) as [<-|Hij];
      destruct (decide (i = k)) as [<-|Hik]; [done| | |by eapply Huniq].
    + injection Hj as <-. eapply (Huniq i k old w); [done|done|congruence].
    + injection Hk as <-. eapply (Huniq j i v old); [done|done|congruence].
Qed.

Lemma sound_delete_user (db : Db) (i : ObjectId) :
  sound db -> sound (set_Users db (delete i (Users db))).
Proof.
  intros (Ha & Hz & Hu & Huniq). unfold sound; simpl.
  split; [done|]. split; [done|]. split.
  - intros j v Hj. apply lookup_delete_Some in Hj as [_ Hj]. by eapply Hu.
  - intros j k v w Hj Hk. apply lookup_delete_Some in Hj as [_ Hj].
    apply lookup_delete_Some in Hk as [_ Hk]. by eapply Huniq.
Qed.

Lemma post_no_zoo_sound (db : Db) (b : AnimalBody) :
  sound db -> sound (post_no_zoo db b).1.
Proof.
  intros Hdb. unfold post_no_zoo, Animal_save_new.
  destruct (negb _ || negb _); [done|].
  destruct (required (body_name b)); [|done]; simpl.
  destruct (required (body_species b)); [|done]; simpl.
  by apply sound_new_animal.
Qed.

Lemma post_animal_sound (db : Db) (b : AnimalBody) :
  sound db -> sound (post_animal db b).1.
Proof.
  intros Hdb. unfold post_animal, Animal_save_new.
  destruct (findById (Zoos db) (body_zoo b)); [|done].
  destruct (required (body_name b)); [|done]; simpl.
  destruct (required (body_species b)); [|done]; simpl.
  by apply sound_new_animal.
Qed.

Lemma Animal_findByIdAndUpdate_sound (db : Db) (id : ObjectId) (u : AnimalUpdate) :
  sound db -> sound (Animal_findByIdAndUpdate db id u).1.
Proof.
  intros Hdb. unfold Animal_findByIdAndUpdate.
  destruct (Animals db !! id) as [a|] eqn:Ha; [|done]. simpl.
  apply sound_set_animal; [done|by eexists].
Qed.

Lemma put_animal_sound (db : Db) (id : ObjectId) (b : AnimalBody) :
  sound db -> sound (put_animal db id b).1.
Proof.
  intros Hdb. unfold put_animal.
  destruct (findById (Zoos db) (body_zoo b)) as [foundZoo|]; [|done].
  pose proof (Animal_findByIdAndUpdate_sound db id
                (mkAnimalUpdate (body_name b) (body_species b) (Some (_id foundZoo)))
                Hdb) as Hupd.
  by destruct (Animal_findByIdAndUpdate db id _) as [db' [animal|]].
Qed.

Lemma updateAnimal_sound (db : Db) (id : ObjectId) (b : AnimalBody) :
  sound db -> sound (updateAnimal db id b).1.
Proof.
  intros Hdb. unfold updateAnimal.
  pose proof (Animal_findByIdAndUpdate_sound db id
                (mkAnimalUpdate (body_name b) (body_species b) (body_zoo b)) Hdb)
    as Hupd.
  by destruct (Animal_findByIdAndUpdate db id _) as [db' [animal|]].
Qed.

Lemma delete_animal_sound (db : Db) (id : ObjectId) :
  sound db -> sound (delete_animal db id).1.
Proof.
  intros Hdb. unfold delete_animal.
  destruct (findById (Animals db) (Some id)) as [animal|]; [|done].
  destruct (findById (Zoos db) (Animal.zoo (fields animal))); [|done].
  by apply sound_delete_animal.
Qed.

Lemma post_zoo_sound (find_in_undefined : Db -> result (list (Doc Animal.t)))
  (db : Db) (b : ZooBody) :
  sound db -> sound (post_zoo find_in_undefined db b).1.
Proof.
  intros Hdb. unfold post_zoo, Animal_find_in_body, array_length, Zoo_save_new.
  destruct (zbody_animals b) as [ids|]; simpl; [|by destruct (find_in_undefined db)].
  destruct (negb _); [done|].
  destruct (required (zbody_name b)) as [n|] eqn:Hn; [|done]; simpl.
  destruct (required (zbody_location b)) as [l|] eqn:Hl; [|done]; simpl.
  apply required_Ok in Hn as [_ Hn]. apply required_Ok in Hl as [_ Hl].
  apply sound_new_zoo; [done|done|done|]. simpl.
  intros j Hj. apply (elem_of_resolved db ids j) in Hj as [_ [a Ha]].
  destruct Hdb as [Hanimals _]. by eapply Hanimals.
Qed.

Lemma Zoo_save_sound (db db' : Db) (z : Doc Zoo.t) :
  sound db -> _id z < nextId db ->
  (forall j, j ∈ Zoo.animals (fields z) -> j < nextId db) ->
  Zoo_save db z = Ok db' -> sound db'.
Proof.
  intros Hdb Hlt Hids. unfold Zoo_save.
  destruct (required (Some (Zoo.name (fields z)))) as [n|] eqn:Hn; [|done]; simpl.
  destruct (required (Some (Zoo.location (fields z)))) as [l|] eqn:Hl; [|done]; simpl.
  apply required_Ok in Hn as [[= <-] Hn]. apply required_Ok in Hl as [[= <-] Hl].
  intros [= <-]. by apply sound_set_zoo.
Qed.

Lemma createAnimal_sound (db : Db) (b : AnimalBody) :
  sound db -> sound (createAnimal db b).1.
Proof.
  intros Hdb. unfold createAnimal, Animal_save_new.
  destruct (required (body_name b)) as [n|]; [|done]; simpl.
  destruct (required (body_species b)) as [s|]; [|done]; simpl.
  pose proof (sound_new_animal db (Animal.mk n s (body_zoo b)) Hdb) as Hdb1.
  set (db1 := bump (set_Animals db _)) in *.
  destruct (findById (Zoos db) (body_zoo b)) as [zoo|] eqn:Hzoo; [|exact Hdb1].
  destruct (body_zoo b) as [z|]; [|done].
  apply findById_Some in Hzoo as [Hid Hzoo].
  pose proof Hdb as (_ & Hz & _ & _).
  destruct (Hz _ _ Hzoo) as (Hlt & _ & _ & Hids).
  destruct (Zoo_save db1 _) as [db2|e] eqn:Hsave; [|exact Hdb1].
  simpl. eapply Zoo_save_sound; [exact Hdb1| | |exact Hsave].
  - subst db1; simpl. rewrite Hid. lia.
  - subst db1; simpl. intros j Hj. apply elem_of_app in Hj as [Hj|Hj].
    + apply Hids in Hj. lia.
    + apply list_elem_of_singleton in Hj as ->. lia.
Qed.

Lemma deleteAnimal_sound (db : Db) (id : ObjectId) :
  sound db -> sound (deleteAnimal db id).1.
Proof.
  intros Hdb. unfold deleteAnimal.
  destruct (findById (Animals db) (Some id)) as [animal|]; [|done].
  destruct (findById (Zoos db) (Animal.zoo (fields animal))) as [zoo|] eqn:Hzoo.
  - destruct (Animal.zoo (fields animal)) as [z|]; [|done].
    apply findById_Some in Hzoo as [Hid Hzoo].
    pose proof Hdb as (_ & Hz & _ & _).
    destruct (Hz _ _ Hzoo) as (Hlt & _ & _ & Hids).
    destruct (Zoo_save db _) as [db1|e] eqn:Hsave; [|done].
    simpl. apply sound_delete_animal.
    eapply Zoo_save_sound; [exact Hdb| | |exact Hsave].
    + simpl. by rewrite Hid.
    + simpl. intros j Hj. apply list_elem_of_filter in Hj as [_ Hj]. by apply Hids.
  - simpl. by apply sound_delete_animal.
Qed.

Section Reachable.

Context {bcrypt : bcryptjs} {jwt : jsonwebtoken}.

Lemma register_sound (env : Env) (db : Db) (b : UserBody) (rnd : Entropy) :
  sound db -> sound (register env db b rnd).1.
Proof.
  intros Hdb. unfold register, bcrypt_hash, User_save_new.
  destruct (body_password b); simpl; [|done].
  destruct (required (body_username b)) as [u|]; simpl; [|done].
  destruct (required (Some _)) as [h|]; simpl; [|done].
  destruct (findOne_username (Users db) (Some u)) eqn:Hf; simpl; [done|].
  apply sound_new_user; [done|]. simpl.
  by apply findOne_username_None.
Qed.

Lemma User_save_sound (db db' : Db) (user : Doc User.t) (h : string) :
  sound db -> Users db !! _id user = Some (fields user) ->
  User_save db (_id user, User.mk (User.username (fields user)) h) = Ok db' ->
  sound db'.
Proof.
  intros Hdb Hstored. unfold User_save; simpl.
  destruct (required (Some (User.username (fields user)))); [|done]; simpl.
  destruct (required (Some h)); [|done]; simpl.
  intros [= <-]. by eapply sound_set_user.
Qed.

Lemma authMiddleware_Next_stored (env : Env) (db : Db)
  (authorization : option string) (user : Doc User.t) :
  authMiddleware env db authorization = Next user ->
  Users db !! _id user = Some (fields user).
Proof.
  unfold authMiddleware. destruct authorization as [header|]; [|done].
  destruct (negb _); [done|].
  destruct (jwt_verify _ _ _) as [decoded|e]; simpl; [|done].
  rewrite ?model_collection_destructured; simpl.
  destruct (Users db !! Jwt.id decoded) as [u|] eqn:Hu; simpl; [|done].
  by intros [= <-].
Qed.

Lemma change_password_sound (env : Env) (db : Db) (authorization : option string)
  (b : ChangePasswordBody) (rnd : Entropy) :
  sound db -> sound (change_password env db authorization b rnd).1.
Proof.
  intros Hdb. unfold change_password, protected.
  destruct (authMiddleware env db authorization) as [r|user|e] eqn:Hauth; [done| |done].
  apply authMiddleware_Next_stored in Hauth as Hstored.
  simpl. unfold change_password_handler, bcrypt_compare, bcrypt_hash.
  destruct (cp_oldPassword b) as [old|]; simpl; [|done].
  destruct (compareHash old _); simpl; [|done].
  destruct (cp_newPassword b) as [new|]; simpl; [|done].
  destruct (User_save db _) as [db'|e] eqn:Hsave; simpl; [|done].
  by eapply User_save_sound.
Qed.

Lemma reset_password_sound (db : Db) (b : ResetPasswordBody) (rnd : Entropy) :
  sound db -> sound (reset_password db b rnd).1.
Proof.
  intros Hdb. unfold reset_password, bcrypt_hash.
  rewrite model_collection_destructured; simpl.
  destruct (findOne_username (Users db) (rp_username b)) as [user|] eqn:Hf;
    simpl; [|done].
  apply findOne_username_Some in Hf as [Hstored _].
  destruct (rp_newPassword b) as [new|]; simpl; [|done].
  destruct (User_save db _) as [db'|e] eqn:Hsave; simpl; [|done].
  by eapply User_save_sound.
Qed.

Lemma delete_user_sound (db : Db) (id : ObjectId) :
  sound db -> sound (delete_user db id).1.
Proof.
  intros Hdb. unfold delete_user. rewrite model_collection_destructured.
  destruct (findById (Users db) (Some id)); simpl; [|done].
  by apply sound_delete_user.
Qed.

Lemma serve_sound (env : Env) (db : Db) (req : Request) :
  sound db -> sound (serve env db req).
Proof.
  intros Hdb. destruct req; simpl.
  - by apply register_sound.
  - by apply change_password_sound.
  - by apply reset_password_sound.
  - by apply delete_user_sound.
  - done.
  - by apply post_no_zoo_sound.
  - by apply post_animal_sound.
  - by apply put_animal_sound.
  - by apply delete_animal_sound.
  - by apply post_zoo_sound.
  - by apply createAnimal_sound.
  - by apply updateAnimal_sound.
  - by apply deleteAnimal_sound.
Qed.

Lemma serve_all_from_sound (db : Db) (trace : list (Env * Request)) :
  sound db -> sound (serve_all db trace).
Proof.
  revert db. induction trace as [|[env req] trace IH]; intros db Hdb; [done|].
  simpl. by apply IH, serve_sound.
Qed.



End Reachable.


(** ** The link between animals and zoos under the controllers *)

Lemma forallb_elem_of {A : Type} (f : A -> bool) (l : list A) :
  forallb f l = true <-> forall x, x ∈ l -> f x = true.
Proof.
  rewrite forallb_forall. split; intros H x Hx; apply H; by apply list_elem_of_In.
Qed.

(** The check [linked] decides the link. *)
Lemma linked_true (db : Db) :
  linked db = true <-> forward_linked db /\ reverse_linked db.
Proof.
  unfold linked, forward_ok, reverse_ok, forward_linked, reverse_linked.
  rewrite andb_true_iff, !forallb_elem_of. split.
  - intros [Hf Hr]. split.
    + intros i z a Hi Hzoo. specialize (Hf (i, a)). simpl in Hf.
      rewrite Hzoo in Hf. specialize (Hf (proj2 (elem_of_docs _ (i, a)) Hi)).
      destruct (Zoos db !! z) as [zoo|]; [|done].
      exists zoo. split; [done|]. by apply bool_decide_eq_true in Hf.
    + intros z i zoo Hz Hin. specialize (Hr (z, zoo) (proj2 (elem_of_docs _ (z, zoo)) Hz)).
      simpl in Hr. rewrite forallb_elem_of in Hr. specialize (Hr i Hin).
      destruct (Animals db !! i) as [a|]; [|done].
      exists a. split; [done|]. by apply bool_decide_eq_true in Hr.
  - intros [Hf Hr]. split.
    + intros [i a] Hd. apply elem_of_docs in Hd. simpl in *.
      destruct (Animal.zoo a) as [z|] eqn:Hzoo; [|done].
      destruct (Hf i z a Hd Hzoo) as [zoo [Hz Hin]]. rewrite Hz.
      by apply bool_decide_eq_true.
    + intros [z zoo] Hd. apply elem_of_docs in Hd. simpl in *.
      apply forallb_elem_of. intros i Hin.
      destruct (Hr z i zoo Hd Hin) as [a [Ha Hzoo]]. rewrite Ha.
      by apply bool_decide_eq_true.
Qed.

Lemma createAnimal_201 (db : Db) (b : AnimalBody) :
  status (createAnimal db b).2 = 201 ->
  exists n s z zoo,
    body_zoo b = Some z /\ Zoos db !! z = Some zoo
    /\ Animals (createAnimal db b).1
       = <[nextId db := Animal.mk n s (Some z)]> (Animals db)
    /\ Zoos (createAnimal db b).1
       = <[z := Zoo.mk (Zoo.name zoo) (Zoo.location zoo)
                       (Zoo.animals zoo ++ [nextId db])]> (Zoos db).
Proof.
  unfold createAnimal, Animal_save_new.
  destruct (required (body_name b)) as [n|]; [|done]; simpl.
  destruct (required (body_species b)) as [s|]; [|done]; simpl.
  destruct (findById (Zoos db) (body_zoo b)) as [zoo|] eqn:Hzoo; [|done].
  destruct (body_zoo b) as [z|]; [|done].
  apply findById_Some in Hzoo as [Hid Hzoo].
  unfold Zoo_save; simpl.
  destruct (required (Some (Zoo.name (fields zoo)))); [|done]; simpl.
  destruct (required (Some (Zoo.location (fields zoo)))); [|done]; simpl.
  intros _. exists n, s, z, (fields zoo). by rewrite Hid.
Qed.

(** A creation through the controller that is answered 201 keeps the
    link: if, before, every animal is listed by the zoo it refers to and
    every listed identifier is an animal of that zoo, the same holds
    after. *)
Theorem createAnimal_keeps_link (db : Db) (b : AnimalBody) :
  sound db -> forward_linked db -> reverse_linked db ->
  status (createAnimal db b).2 = 201 ->
  forward_linked (createAnimal db b).1 /\ reverse_linked (createAnimal db b).1.
Proof.
  intros (Hbelow & _) Hf Hr Hok.
  destruct (createAnimal_201 db b Hok) as (n & s & z & zoo & _ & Hz & HA & HZ).
  assert (Hfresh : forall i a, Animals db !! i = Some a -> nextId db <> i).
  { intros i a Hi. apply Hbelow in Hi. lia. }
  unfold forward_linked, reverse_linked. rewrite HA, HZ. split.
  - intros i z' a Hi Hzoo. rewrite lookup_insert in Hi.
    destruct (decide (nextId db = i)) as [<-|Hne].
    + injection Hi as <-. injection Hzoo as <-.
      eexists. split; [apply lookup_insert_eq|]. simpl.
      apply elem_of_app. right. by left.
    + destruct (Hf i z' a Hi Hzoo) as [zf [Hzf Hin]].
      rewrite lookup_insert. destruct (decide (z = z')) as [<-|Hnz].
      * eexists. split; [done|]. simpl. apply elem_of_app. left. congruence.
      * by exists zf.
  - intros z' i zf Hzf Hin. rewrite lookup_insert in Hzf.
    destruct (decide (z = z')) as [<-|Hnz].
    + injection Hzf as <-. simpl in Hin. apply elem_of_app in Hin as [Hin|Hin].
      * destruct (Hr z i zoo Hz Hin) as [a [Ha Hzoo]].
        exists a. split; [|done]. rewrite lookup_insert_ne; [done|by eapply Hfresh].
      * apply list_elem_of_singleton in Hin as ->.
        eexists. split; [apply lookup_insert_eq|done].
    + destruct (Hr z' i zf Hzf Hin) as [a [Ha Hzoo]].
      exists a. split; [|done]. rewrite lookup_insert_ne; [done|by eapply Hfresh].
Qed.

Lemma deleteAnimal_store (db : Db) (id : ObjectId) :
  (deleteAnimal db id).1 = db
  \/ exists a,
       Animals db !! id = Some a
       /\ Animals (deleteAnimal db id).1 = delete id (Animals db)
       /\ ((exists z zoo,
              Animal.zoo a = Some z /\ Zoos db !! z = Some zoo
              /\ Zoos (deleteAnimal db id).1
                 = <[z := Zoo.mk (Zoo.name zoo) (Zoo.location zoo)
                                 (filter (fun j => j ≠ id) (Zoo.animals zoo))]>
                     (Zoos db))
           \/ (findById (Zoos db) (Animal.zoo a) = None
               /\ Zoos (deleteAnimal db id).1 = Zoos db)).
Proof.
  unfold deleteAnimal.
  destruct (findById (Animals db) (Some id)) as [animal|] eqn:Ha; [|by left].
  apply findById_Some in Ha as [Hid Ha].
  destruct (findById (Zoos db) (Animal.zoo (fields animal))) as [zoo|] eqn:Hzoo.
  - destruct (Animal.zoo (fields animal)) as [z|] eqn:Hz; [|done].
    apply findById_Some in Hzoo as [Hzid Hzoo].
    unfold Zoo_save; simpl.
    destruct (required (Some (Zoo.name (fields zoo)))); [|by left]; simpl.
    destruct (required (Some (Zoo.location (fields zoo)))); [|by left]; simpl.
    right. exists (fields animal). split; [done|]. split; [done|].
    left. exists z, (fields zoo). rewrite Hzid, Hid. by rewrite Hz.
  - simpl. right. exists (fields animal). split; [done|]. split; [done|].
    by right.
Qed.

(** A deletion through the controller keeps the link, whatever it
    answers. *)
Theorem deleteAnimal_keeps_link (db : Db) (id : ObjectId) :
  forward_linked db -> reverse_linked db ->
  forward_linked (deleteAnimal db id).1 /\ reverse_linked (deleteAnimal db id).1.
Proof.
  intros Hf Hr.
  destruct (deleteAnimal_store db id)
    as [->|(a & Ha & HA & [(z & zoo & Hzoo & Hz & HZ)|[Hnone HZ]])]; [done| |].
  - unfold forward_linked, reverse_linked. rewrite HA, HZ. split.
    + intros i z' a' Hi Hzoo'. apply lookup_delete_Some in Hi as [Hne Hi].
      destruct (Hf i z' a' Hi Hzoo') as [zf [Hzf Hin]].
      rewrite lookup_insert. destruct (decide (z = z')) as [<-|Hnz]; [|by exists zf].
      eexists. split; [done|]. simpl. apply list_elem_of_filter.
      split; [congruence|congruence].
    + intros z' i zf Hzf Hin. rewrite lookup_insert in Hzf.
      destruct (decide (z = z')) as [<-|Hnz].
      * injection Hzf as <-. simpl in Hin.
        apply list_elem_of_filter in Hin as [Hne Hin].
        destruct (Hr z i zoo Hz Hin) as [a' [Ha' Hzoo']].
        exists a'. split; [|done]. by rewrite lookup_delete_ne.
      * destruct (Hr z' i zf Hzf Hin) as [a' [Ha' Hzoo']].
        exists a'. split; [|done]. rewrite lookup_delete_ne; [done|].
        intros ->. congruence.
  - assert (Hzoo : Animal.zoo a = None).
    { destruct (Animal.zoo a) as [z|] eqn:Hzoo; [|done].
      destruct (Hf id z a Ha Hzoo) as [zf [Hzf _]].
      apply findById_None in Hnone. congruence. }
    unfold forward_linked, reverse_linked. rewrite HA, HZ. split.
    + intros i z' a' Hi Hzoo'. apply lookup_delete_Some in Hi as [Hne Hi].
      by eapply Hf.
    + intros z' i zf Hzf Hin.
      destruct (Hr z' i zf Hzf Hin) as [a' [Ha' Hzoo']].
      exists a'. split; [|done]. rewrite lookup_delete_ne; [done|].
      intros ->. congruence.
Qed.

Lemma createAnimal_keeps_link_witness :
  forward_linked (createAnimal db_city_zoo leo_body).1
  /\ reverse_linked (createAnimal db_city_zoo leo_body).1.
Proof.
  assert (Hlinked : forward_linked db_city_zoo /\ reverse_linked db_city_zoo)
    by by apply linked_true.
  assert (Hsound : sound db_city_zoo).
  { apply (@serve_all_from_sound fake_bcrypt fake_jwt empty_db
             [(mkEnv "secret" 1000,
               PostZoos (fun _ => Ok [])
                 (mkZooBody (Some "City Zoo") (Some "Springfield") (Some [])))]
             sound_empty). }
  destruct Hlinked as [Hf Hr].
  apply (createAnimal_keeps_link db_city_zoo leo_body Hsound Hf Hr). reflexivity.
Defined.

Lemma deleteAnimal_keeps_link_witness :
  forward_linked (deleteAnimal db_leo_housed 1).1
  /\ reverse_linked (deleteAnimal db_leo_housed 1).1.
Proof.
  assert (Hlinked : forward_linked db_leo_housed /\ reverse_linked db_leo_housed)
    by by apply linked_true.
  destruct Hlinked as [Hf Hr].
  apply (deleteAnimal_keeps_link db_leo_housed 1 Hf Hr).
Defined.

(** ** The link between animals and zoos under the mounted handlers *)

(** On a sound store every 201 of the mounted POST breaks the link: the
    new animal refers to a zoo that does not list it. *)
Theorem post_animal_201_breaks_link (db : Db) (b : AnimalBody) :
  sound db -> status (post_animal db b).2 = 201 ->
  ~ forward_linked (post_animal db b).1.
Proof.
  intros (_ & Hzoos & _) Hok Hlinked. revert Hok Hlinked.
  unfold post_animal, Animal_save_new.
  destruct (findById (Zoos db) (body_zoo b)) as [foundZoo|] eqn:Hzoo; [|done].
  destruct (body_zoo b) as [z|]; [|done].
  apply findById_Some in Hzoo as [Hid Hzoo].
  destruct (required (body_name b)) as [n|]; [|done]; simpl.
  destruct (required (body_species b)) as [s|]; [|done]; simpl.
  intros _ Hlinked.
  destruct (Hlinked (nextId db) (_id foundZoo) (Animal.mk n s (Some (_id foundZoo))))
    as [zoo [Hz Hin]]; simpl in *; [by rewrite lookup_insert_eq|done|].
  rewrite Hid in Hz.
  destruct (Hzoos z zoo Hz) as (_ & _ & _ & Hids). apply Hids in Hin. lia.
Qed.

(** On a store where every animal is listed by its zoo, every 200 of the
    mounted DELETE breaks the link: the zoo goes on listing an animal
    that no longer exists. *)
Theorem delete_animal_200_breaks_link (db : Db) (id : ObjectId) :
  forward_linked db -> status (delete_animal db id).2 = 200 ->
  ~ reverse_linked (delete_animal db id).1.
Proof.
  intros Hf Hok Hlinked. revert Hok Hlinked. unfold delete_animal.
  destruct (findById (Animals db) (Some id)) as [animal|] eqn:Ha; [|done].
  apply findById_Some in Ha as [Hid Ha].
  destruct (findById (Zoos db) (Animal.zoo (fields animal))) as [zoo|] eqn:Hzoo;
    [|done].
  destruct (Animal.zoo (fields animal)) as [z|] eqn:Hz; [|done].
  simpl. intros _ Hlinked.
  destruct (Hf id z (fields animal) Ha Hz) as [zf [Hzf Hin]].
  destruct (Hlinked z id zf Hzf Hin) as [a' [Ha' _]]; simpl in *.
  by rewrite lookup_delete_eq in Ha'.
Qed.

(** On a store where every listed identifier is an animal of the listing
    zoo, the mounted PUT that moves an animal to another zoo breaks the
    link: the animal refers to a zoo that does not list it. *)
Theorem put_animal_move_breaks_link (db : Db) (id z : ObjectId) (a : Animal.t)
  (zoo : Zoo.t) (b : AnimalBody) :
  reverse_linked db ->
  Animals db !! id = Some a -> Animal.zoo a <> Some z ->
  body_zoo b = Some z -> Zoos db !! z = Some zoo ->
  status (put_animal db id b).2 = 200 /\ ~ forward_linked (put_animal db id b).1.
Proof.
  intros Hr Ha Hne Hbz Hz. unfold put_animal, Animal_findByIdAndUpdate, findById.
  rewrite Hbz, Hz; simpl. rewrite Ha; simpl. split; [done|].
  intros Hlinked.
  destruct (Hlinked id z (apply_update
              (mkAnimalUpdate (body_name b) (body_species b) (Some z)) a))
    as [zf [Hzf Hin]]; simpl in *; [by rewrite lookup_insert_eq|done|].
  destruct (Hr z id zf Hzf Hin) as [a' [Ha' Hzoo']]. congruence.
Qed.

Lemma post_animal_201_breaks_link_witness :
  ~ forward_linked (post_animal db_city_zoo leo_body).1.
Proof.
  apply (post_animal_201_breaks_link db_city_zoo leo_body); [|reflexivity].
  apply (@serve_all_from_sound fake_bcrypt fake_jwt empty_db
           [(mkEnv "secret" 1000,
             PostZoos (fun _ => Ok [])
               (mkZooBody (Some "City Zoo") (Some "Springfield") (Some [])))]
           sound_empty).
Defined.

Lemma delete_animal_200_breaks_link_witness :
  ~ reverse_linked (delete_animal db_leo_housed 1).1.
Proof.
  apply (delete_animal_200_breaks_link db_leo_housed 1); [|reflexivity].
  by apply linked_true.
Defined.

Lemma put_animal_move_breaks_link_witness :
  let b := mkAnimalBody (Some "Leo") (Some "lion") (Some 2) in
  status (put_animal db_two_zoos 1 b).2 = 200
  /\ ~ forward_linked (put_animal db_two_zoos 1 b).1.
Proof.
  intros b.
  apply (put_animal_move_breaks_link db_two_zoos 1 2 leo
           (Zoo.mk "Safari Park" "Shelbyville" []) b);
    [by apply linked_true|reflexivity|discriminate|reflexivity|reflexivity].
Defined.
